(** * dnssync_nc: the DNS record model and the netcup connection

    A shallow embedding of [dnssync_nc/DNSRecords.py] and
    [dnssync_nc/NetcupConnection.py].

    - JSON-like Python values are the inductive type [pyval]; a [dict] is an
      association list in insertion order, read through [dict_get] (first
      binding of a key), written through [dict_set].
    - Python exceptions are the type [exn]; a computation that may raise
      returns an [outcome].
    - The fields of a [DNSRecord] have the types of the annotations of its
      constructor ([Optional[int]], [str]); strings are byte strings.
    - [DNSRecord], [DNSRecordSet] and [NetcupConnection] objects are mutable
      and shared by reference: a [DNSRecordSet] holds references into an
      object store ([gmap]), and the methods that touch the store are written
      in a state-and-exception monad [M] over the interpreter state [world].
      The methods of [DNSRecord] are functions of the object's fields; the
      store applies them through [call_record] and [update_record].
    - [assert] statements are executed (the interpreter's default).
    - The HTTP transport ([requests]) is a parameter of the connection.
    - The class [DNSZone], in another file of the package, is a parameter of
      [info_dns_zone] and [update_dns_zone].
    - Not embedded: [__repr__] and [__str__] (text formatting of tuples) and
      [from_credentials_file] (file access). *)

From Stdlib Require Import ZArith String Ascii List Bool Lia DecimalString.
From stdpp Require Import base option list gmap strings.

Local Open Scope Z_scope.
Local Open Scope string_scope.

(** ** Python values and exceptions *)

#[warnings="-register-all"]
Inductive pyval : Type :=
| PNone
| PBool (b : bool)
| PInt (z : Z)
| PStr (s : string)
| PList (l : list pyval)
| PDict (d : list (string * pyval)).

Abbreviation dict := (list (string * pyval)).

(** Exceptions of the interpreter and of the package.  [ServerResponseError]
    keeps the arguments it was raised with: the message (as a format string),
    the values formatted into it, and the response handed over for
    diagnostics.  [ModelFault] is not a Python exception: it marks the two
    places where the embedding is narrower than the interpreter (a reference
    to an object that is not in the store, a payload field whose value does
    not have the type the constructor is annotated with). *)
Inductive exn : Type :=
| KeyError (key : string)
| TypeError
| ValueError
| AssertionError
| ServerResponseError (message : string) (fmt_args : list pyval)
                      (response : option (Z * pyval))
| ModelFault (what : string).

Inductive outcome (A : Type) : Type :=
| Ret (a : A)
| Raise (e : exn).
Arguments Ret {A} a.
Arguments Raise {A} e.

Definition obind {A B} (o : outcome A) (k : A -> outcome B) : outcome B :=
  match o with
  | Ret a => k a
  | Raise e => Raise e
  end.

Declare Scope outcome_scope.
Delimit Scope outcome_scope with outcome.
Notation "'try' x <- e ; k" := (obind e (fun x => k))
  (at level 10, x name, e at level 100, k at level 200) : outcome_scope.

(** ** Builtins used by the package *)

Module Py.

(** [str.upper] on the ASCII letters; other bytes are kept.  No character
    outside ASCII has "M" or "X" as its upper case, so the comparison of an
    upper-cased string with "MX" is the interpreter's. *)
Definition upper_ascii (c : ascii) : ascii :=
  let n := nat_of_ascii c in
  if ((97 <=? n) && (n <=? 122))%nat then ascii_of_nat (n - 32) else c.

Fixpoint upper (s : string) : string :=
  match s with
  | EmptyString => EmptyString
  | String c s' => String (upper_ascii c) (upper s')
  end.

(** Dictionary access: [k in d], [d.get(k)], [d[k]] and [d[k] = v]. *)
Fixpoint dict_get (k : string) (d : dict) : option pyval :=
  match d with
  | [] => None
  | (k', v) :: d' => if String.eqb k' k then Some v else dict_get k d'
  end.

Definition dict_contains (k : string) (d : dict) : bool :=
  match dict_get k d with Some _ => true | None => false end.

Definition get (k : string) (d : dict) : pyval :=
  match dict_get k d with Some v => v | None => PNone end.

Definition dict_item (k : string) (d : dict) : outcome pyval :=
  match dict_get k d with
  | Some v => Ret v
  | None => Raise (KeyError k)
  end.

Fixpoint dict_set (k : string) (v : pyval) (d : dict) : dict :=
  match d with
  | [] => [(k, v)]
  | (k', v') :: d' =>
      if String.eqb k' k then (k', v) :: d' else (k', v') :: dict_set k v d'
  end.

Definition dict_keys (d : dict) : list string := map fst d.

(** [v[k]] for a string key [k]: only a dict can be subscripted by a
    string. *)
Definition subscript (v : pyval) (k : string) : outcome pyval :=
  match v with
  | PDict d => dict_item k d
  | _ => Raise TypeError
  end.

(** Truth value of an object. *)
Definition truthy (v : pyval) : bool :=
  match v with
  | PNone => false
  | PBool b => b
  | PInt z => negb (Z.eqb z 0)
  | PStr s => negb (String.eqb s "")
  | PList l => match l with [] => false | _ => true end
  | PDict d => match d with [] => false | _ => true end
  end.

(** [int(s)] for a string, base 10: surrounding whitespace is stripped, one
    sign is allowed, then decimal digits, single underscores allowed between
    digits.  Strings are byte strings here; digits and spaces outside ASCII,
    and the interpreter's configurable limit on the number of digits, are
    not modelled. *)
Definition is_space (c : ascii) : bool :=
  let n := nat_of_ascii c in
  (((9 <=? n) && (n <=? 13)) || (n =? 32))%nat.

Definition digit_of (c : ascii) : option Z :=
  let n := nat_of_ascii c in
  if ((48 <=? n) && (n <=? 57))%nat then Some (Z.of_nat (n - 48)) else None.

Fixpoint lstrip (s : list ascii) : list ascii :=
  match s with
  | c :: s' => if is_space c then lstrip s' else s
  | [] => []
  end.

Definition strip (s : list ascii) : list ascii :=
  rev (lstrip (rev (lstrip s))).

(** [digits acc prev_digit s]: [prev_digit] tells whether the character
    before [s] was a digit (an underscore must stand between two digits). *)
Fixpoint digits (acc : Z) (prev_digit : bool) (s : list ascii) : option Z :=
  match s with
  | [] => if prev_digit then Some acc else None
  | c :: s' =>
      match digit_of c with
      | Some d => digits (10 * acc + d) true s'
      | None =>
          if (Ascii.eqb c "_" && prev_digit)%bool
          then match s' with
               | [] => None
               | _ => digits acc false s'
               end
          else None
      end
  end.

Definition int_of_str (s : string) : option Z :=
  match strip (list_ascii_of_string s) with
  | [] => None
  | c :: s' =>
      if Ascii.eqb c "-" then Z.opp <$> digits 0 false s'
      else if Ascii.eqb c "+" then digits 0 false s'
      else digits 0 false (c :: s')
  end.

(** [int(v)]. *)
Definition int (v : pyval) : outcome Z :=
  match v with
  | PInt z => Ret z
  | PBool b => Ret (if b then 1 else 0)
  | PStr s => match int_of_str s with
              | Some z => Ret z
              | None => Raise ValueError
              end
  | PNone | PList _ | PDict _ => Raise TypeError
  end.

(** Text formatting: ["%d" % z], [" " * n], the padding of ["%<n>d"] and
    ["%-<n>s"], and [sep.join(xs)].  Widths count bytes. *)
Definition decimal (z : Z) : string := NilZero.string_of_int (Z.to_int z).

Fixpoint spaces (n : nat) : string :=
  match n with
  | O => EmptyString
  | S n' => String " " (spaces n')
  end.

Definition rjust (width : nat) (s : string) : string :=
  spaces (width - String.length s) ++ s.

Definition ljust (width : nat) (s : string) : string :=
  s ++ spaces (width - String.length s).

Fixpoint join (sep : string) (xs : list string) : string :=
  match xs with
  | [] => EmptyString
  | [x] => x
  | x :: xs' => x ++ sep ++ join sep xs'
  end.

(** An [Optional[int]] as a value. *)
Definition of_optional_int (o : option Z) : pyval :=
  match o with
  | Some z => PInt z
  | None => PNone
  end.

End Py.

(** An argument that is either an instance of the class at hand or some
    other object: what [isinstance] distinguishes. *)
Inductive pyarg (A : Type) : Type :=
| Instance_ (a : A)
| NotInstance.
Arguments Instance_ {A} a.
Arguments NotInstance {A}.

Definition isinstance {A} (x : pyarg A) : bool :=
  match x with
  | Instance_ _ => true
  | NotInstance => false
  end.

(** Code that prints: the lines written to stdout so far are passed along. *)
Definition Out (A : Type) : Type := list string -> outcome A * list string.

Definition print (line : string) : Out unit :=
  fun stdout => (Ret tt, (stdout ++ [line])%list).

(** ** DNSRecord *)

Module DNSRecord.

Record DNSRecord : Type := mk {
  record_id : option Z;
  record_type : string;
  hostname : string;
  destination : string;
  priority : option Z;
  deleted : bool
}.

Definition __init__ (record_id : option Z) (record_type hostname destination : string)
    (priority : option Z) : DNSRecord :=
  mk record_id record_type hostname destination priority false.

Definition new (record_type hostname destination : string)
    (priority : option Z) : DNSRecord :=
  let priority :=
    if String.eqb (Py.upper record_type) "MX" then
      match priority with
      | None => Some 10
      | Some _ => priority
      end
    else priority in
  __init__ None record_type hostname destination priority.

Definition _cmpkey (self : DNSRecord) : string * string * string * option Z :=
  (record_type self, hostname self, destination self, priority self).

Definition delete (self : DNSRecord) : DNSRecord :=
  mk (record_id self) (record_type self) (hostname self) (destination self)
     (priority self) true.

Definition dump (self : DNSRecord) (prefix : string) : Out unit :=
  fun stdout =>
    let components :=
      [ match record_id self with
        | Some record_id => "[" ++ Py.rjust 10 (Py.decimal record_id) ++ "]"
        | None => Py.spaces 12
        end ] in
    let components :=
      app components
          [ Py.ljust 4 (Py.upper (record_type self)) ++ " " ++ hostname self
            ++ " -> " ++ destination self ] in
    let components :=
      if String.eqb (Py.upper (record_type self)) "MX" then
        match priority self with
        | Some priority =>
            Ret (app components ["priority " ++ Py.decimal priority])
        | None => Raise TypeError
        end
      else Ret components in
    match components with
    | Raise e => (Raise e, stdout)
    | Ret components =>
        let components :=
          if deleted self then app components ["<DELETE>"] else components in
        print (prefix ++ Py.join " " components) stdout
    end.

(** A payload field that the constructor's annotation requires to be a
    [str]. *)
Definition str_field (k : string) (d : dict) : outcome string :=
  (try v <- Py.dict_item k d;
   match v with
   | PStr s => Ret s
   | _ => Raise (ModelFault "field is not a str")
   end)%outcome.

Definition deserialize (data : pyval) : outcome DNSRecord :=
  match data with
  | PDict d =>
      (try priority <-
         (if Py.dict_contains "priority" d then
            try v <- Py.dict_item "priority" d;
            try priority <- Py.int v;
            Ret (if Z.eqb priority 0 then None else Some priority)
          else Ret None);
       try id_v <- Py.dict_item "id" d;
       try record_id <- Py.int id_v;
       try record_type <- str_field "type" d;
       try hostname <- str_field "hostname" d;
       try destination <- str_field "destination" d;
       let record :=
         __init__ (Some record_id) record_type hostname destination priority in
       Ret (if Py.truthy (Py.get "delete" d)
            then delete record else record))%outcome
  | _ =>
      (* ["priority" in data] or the string subscript fail on anything that
         is not a dict *)
      Raise TypeError
  end.

(** [None] is the "delete entirely new record" result. *)
Definition serialize (self : DNSRecord) : option dict :=
  if deleted self && bool_decide (record_id self = None) then None
  else
    let result :=
      [ ("id", Py.of_optional_int (record_id self));
        ("type", PStr (record_type self));
        ("hostname", PStr (hostname self));
        ("destination", PStr (destination self));
        ("deleterecord", PBool (deleted self));
        ("state", PNone) ] in
    Some (match priority self with
          | Some p => Py.dict_set "priority" (PInt p) result
          | None => result
          end).

Definition cmpkey_eqb (a b : string * string * string * option Z) : bool :=
  bool_decide (a = b).

Definition __eq__ (self : DNSRecord) (other : pyarg DNSRecord) : bool :=
  isinstance other &&
  match other with
  | Instance_ o => cmpkey_eqb (_cmpkey self) (_cmpkey o)
  | NotInstance => false
  end.

Definition __neq__ (self : DNSRecord) (other : pyarg DNSRecord) : bool :=
  negb (__eq__ self other).

Section Hash.
(** The builtin [hash] on the comparison key: some function, fixed for
    the life of the process. *)
Variable hash : string * string * string * option Z -> Z.

Definition __hash__ (self : DNSRecord) : Z := hash (_cmpkey self).
End Hash.

End DNSRecord.

(** ** The object store *)

Abbreviation loc := positive.

Module DNSRecordSet_obj.
Record DNSRecordSet : Type := mk_set {
  domainname : string;
  _records : list loc
}.
End DNSRecordSet_obj.

Module NetcupConnection_obj.
Record NetcupConnection : Type := mk_connection {
  _uri : string;
  customer : string;
  api_key : string;
  api_password : string;
  _session_id : pyval
}.
End NetcupConnection_obj.

Inductive object : Type :=
| ObjRecord (r : DNSRecord.DNSRecord)
| ObjRecordSet (s : DNSRecordSet_obj.DNSRecordSet)
| ObjConnection (c : NetcupConnection_obj.NetcupConnection).

(** What a Python variable can hold: a reference to an object of one of the
    package's classes, or a plain value. *)
Inductive pyobj : Type :=
| Ref (l : loc)
| Val (v : pyval).

Record world : Type := World {
  objects : gmap loc object;
  stderr : list string
}.

(** ** State and exceptions *)

Definition M (A : Type) : Type := world -> outcome A * world.

Definition ret {A} (a : A) : M A := fun w => (Ret a, w).
Definition raise {A} (e : exn) : M A := fun w => (Raise e, w).
Definition bind {A B} (m : M A) (k : A -> M B) : M B :=
  fun w => match m w with
           | (Ret a, w') => k a w'
           | (Raise e, w') => (Raise e, w')
           end.
Definition lift {A} (o : outcome A) : M A := fun w => (o, w).

Declare Scope py_scope.
Delimit Scope py_scope with py.
Notation "x <- e ;; k" := (bind e (fun x => k))
  (at level 100, e at next level, right associativity) : py_scope.
Notation "e ;; k" := (bind e (fun _ => k))
  (at level 100, right associativity) : py_scope.
Local Open Scope py_scope.

Definition load (l : loc) : M object :=
  fun w => match objects w !! l with
           | Some o => (Ret o, w)
           | None => (Raise (ModelFault "no object at this reference"), w)
           end.

Definition store (l : loc) (o : object) : M unit :=
  fun w => (Ret tt, World (<[l := o]> (objects w)) (stderr w)).

Definition alloc (o : object) : M loc :=
  fun w => let l := fresh (dom (objects w)) in
           (Ret l, World (<[l := o]> (objects w)) (stderr w)).

Definition print_stderr (line : string) : M unit :=
  fun w => (Ret tt, World (objects w) (stderr w ++ [line])).

Definition read_record (l : loc) : M DNSRecord.DNSRecord :=
  o <- load l ;;
  match o with
  | ObjRecord r => ret r
  | _ => raise (ModelFault "not a DNSRecord")
  end.

Definition read_set (l : loc) : M DNSRecordSet_obj.DNSRecordSet :=
  o <- load l ;;
  match o with
  | ObjRecordSet s => ret s
  | _ => raise (ModelFault "not a DNSRecordSet")
  end.

Definition read_connection (l : loc) : M NetcupConnection_obj.NetcupConnection :=
  o <- load l ;;
  match o with
  | ObjConnection c => ret c
  | _ => raise (ModelFault "not a NetcupConnection")
  end.

(** A method or property of [DNSRecord] that only reads [self]. *)
Definition call_record {A} (l : loc) (method : DNSRecord.DNSRecord -> A) : M A :=
  r <- read_record l ;;
  ret (method r).

(** A method of [DNSRecord] that assigns to fields of [self]. *)
Definition update_record (l : loc)
    (method : DNSRecord.DNSRecord -> DNSRecord.DNSRecord) : M unit :=
  r <- read_record l ;;
  store l (ObjRecord (method r)).

(** [isinstance(x, DNSRecord)]. *)
Definition as_record (x : pyobj) : M (pyarg loc) :=
  fun w => match x with
           | Ref l => match objects w !! l with
                      | Some (ObjRecord _) => (Ret (Instance_ l), w)
                      | _ => (Ret NotInstance, w)
                      end
           | Val _ => (Ret NotInstance, w)
           end.

(** [for x in xs: body(x)]. *)
Fixpoint for_each {A} (xs : list A) (body : A -> M unit) : M unit :=
  match xs with
  | [] => ret tt
  | x :: xs' => body x ;; for_each xs' body
  end.

(** [[ f(x) for x in xs ]]. *)
Fixpoint comprehension {A B} (f : A -> M B) (xs : list A) : M (list B) :=
  match xs with
  | [] => ret []
  | x :: xs' => y <- f x ;; ys <- comprehension f xs' ;; ret (y :: ys)
  end.

(** The items a [for] loop over a value visits. *)
Definition iterate (v : pyval) : outcome (list pyval) :=
  match v with
  | PList l => Ret l
  | PDict d => Ret (map PStr (Py.dict_keys d))
  | PStr s => Ret (map (fun c => PStr (String c EmptyString)) (list_ascii_of_string s))
  | PNone | PBool _ | PInt _ => Raise TypeError
  end.

(** ** DNSRecordSet *)

Module DNSRecordSet.
Import DNSRecordSet_obj.

Definition __init__ (domainname : string) : M loc :=
  alloc (ObjRecordSet (mk_set domainname [])).

(** The property [domainname]. *)
Definition get_domainname (self : loc) : M string :=
  s <- read_set self ;; ret (domainname s).

Definition add (self : loc) (dns_record : pyobj) : M loc :=
  x <- as_record dns_record ;;
  match x with
  | Instance_ r =>
      s <- read_set self ;;
      store self (ObjRecordSet (mk_set (domainname s) (_records s ++ [r]))) ;;
      ret self
  | NotInstance => raise AssertionError
  end.

Definition from_recoTds (domainname : string) (dns_records : list pyobj) : M loc :=
  dns_record_set <- __init__ domainname ;;
  for_each dns_records (fun dns_record => add dns_record_set dns_record ;; ret tt) ;;
  ret dns_record_set.

Definition delete_all (self : loc) : M unit :=
  s <- read_set self ;;
  for_each (_records s) (fun record => update_record record DNSRecord.delete).

Definition delete_hostname (self : loc) (hostname : string) : M unit :=
  s <- read_set self ;;
  for_each (_records s) (fun record =>
    record_hostname <- call_record record DNSRecord.hostname ;;
    if String.eqb record_hostname hostname
    then update_record record DNSRecord.delete
    else ret tt).

Definition deserialize (domainname : string) (data : pyval) : M loc :=
  match data with
  | PDict d =>
      record_set <- __init__ domainname ;;
      items <- lift (obind (Py.dict_item "dnsrecords" d) iterate) ;;
      for_each items (fun record_data =>
        r <- lift (DNSRecord.deserialize record_data) ;;
        record <- alloc (ObjRecord r) ;;
        add record_set (Ref record) ;; ret tt) ;;
      ret record_set
  | _ => raise AssertionError
  end.

Definition serialize (self : loc) : M pyval :=
  s <- read_set self ;;
  records <- comprehension
               (fun dns_record => call_record dns_record DNSRecord.serialize)
               (_records s) ;;
  let records := omap (fun record => record) records in
  ret (PDict [("dnsrecords", PList (map PDict records))]).

Definition __len__ (self : loc) : M nat :=
  s <- read_set self ;; ret (length (_records s)).

(** [dump] reads the set and its records and prints; it assigns to no
    object, so the state is an argument only.  [dump_from] is its loop over
    [enumerate(self, rec_no)]. *)
Fixpoint dump_from (w : world) (rec_no : Z) (records : list loc) : Out unit :=
  fun stdout =>
    match records with
    | [] => (Ret tt, stdout)
    | record :: records' =>
        match objects w !! record with
        | Some (ObjRecord r) =>
            let prefix :=
              String (ascii_of_nat 9) (Py.rjust 2 (Py.decimal rec_no) ++ ") ") in
            match DNSRecord.dump r prefix stdout with
            | (Ret _, stdout') => dump_from w (rec_no + 1) records' stdout'
            | (Raise e, stdout') => (Raise e, stdout')
            end
        | _ => (Raise (ModelFault "not a DNSRecord"), stdout)
        end
    end.

Definition dump (self : loc) (w : world) : Out unit :=
  fun stdout =>
    match objects w !! self with
    | Some (ObjRecordSet s) => dump_from w 1 (_records s) stdout
    | _ => (Raise (ModelFault "not a DNSRecordSet"), stdout)
    end.

Definition __iter__ (self : loc) : M (list loc) :=
  s <- read_set self ;; ret (_records s).

End DNSRecordSet.

(** ** NetcupConnection *)

Module NetcupConnection.
Import NetcupConnection_obj.

(** What [_action] returns: the dict with the keys ["status"] and
    ["data"]. *)
Record response : Type := Response {
  status : Z;
  data : pyval
}.

Definition as_pair (r : response) : Z * pyval := (status r, data r).

(** [v != s] for a string literal [s]. *)
Definition differs_from_str (v : pyval) (s : string) : bool :=
  match v with
  | PStr s' => negb (String.eqb s' s)
  | _ => true
  end.

Section Transport.
(** [self._session.post(uri, data = json.dumps(payload))] followed by
    [response.status_code] and [response.json()]: the provider's answer to
    a payload, or the exception of the transport. *)
Variable post : string -> pyval -> outcome (Z * pyval).

Definition __init__ (json_endpoint_uri customer api_key api_password : string)
    : M loc :=
  alloc (ObjConnection
           (mk_connection json_endpoint_uri customer api_key api_password PNone)).

Definition logged_in (self : loc) : M bool :=
  c <- read_connection self ;;
  ret (match _session_id c with PNone => false | _ => true end).

Definition _action (self : loc) (action_name : string) (params : dict)
    : M response :=
  c <- read_connection self ;;
  let payload := PDict [("action", PStr action_name); ("param", PDict params)] in
  r <- lift (post (_uri c) payload) ;;
  ret (Response (fst r) (snd r)).

(** [None] is the bare [return] of the unauthenticated case. *)
Definition _session_action (self : loc) (action_name : string)
    (params : option dict) : M (option response) :=
  c <- read_connection self ;;
  match _session_id c with
  | PNone =>
      print_stderr "Cannot execute '%s' without a valid session." ;;
      ret None
  | session_id =>
      let params := match params with Some p => p | None => [] end in
      let params :=
        Py.dict_set "customernumber" (PStr (customer c))
          (Py.dict_set "apisessionid" session_id
             (Py.dict_set "apikey" (PStr (api_key c)) params)) in
      r <- _action self action_name params ;;
      ret (Some r)
  end.

(** [_session_action] for a caller that passes its own dict:
    [params.update] assigns to that dict in place, so the dict is passed
    along beside the state and returned as the call leaves it.  The callers
    in this class pass a fresh dict literal or nothing, which no one else
    holds; for them [_session_action] above takes the parameters by value. *)
Definition _session_action_in_place (self : loc) (action_name : string)
    (params : dict) : world -> (outcome (option response) * world) * dict :=
  fun w =>
    match read_connection self w with
    | (Raise e, w') => ((Raise e, w'), params)
    | (Ret c, w') =>
        match _session_id c with
        | PNone =>
            ((print_stderr "Cannot execute '%s' without a valid session." ;;
              ret None) w', params)
        | session_id =>
            let params :=
              Py.dict_set "customernumber" (PStr (customer c))
                (Py.dict_set "apisessionid" session_id
                   (Py.dict_set "apikey" (PStr (api_key c)) params)) in
            ((r <- _action self action_name params ;; ret (Some r)) w', params)
        end
    end.

Definition login (self : loc) : M response :=
  c <- read_connection self ;;
  response <- _action self "login"
                [("apikey", PStr (api_key c));
                 ("apipassword", PStr (api_password c));
                 ("customernumber", PStr (customer c))] ;;
  (if Z.eqb (status response) 200 then
     responsedata <- lift (Py.subscript (data response) "responsedata") ;;
     apisessionid <- lift (Py.subscript responsedata "apisessionid") ;;
     c <- read_connection self ;;
     store self (ObjConnection
                   (mk_connection (_uri c) (customer c) (api_key c)
                                  (api_password c) apisessionid))
   else ret tt) ;;
  ret response.

Definition logout (self : loc) : M (option response) :=
  _session_action self "logout" None.

Definition list_all_domains (self : loc) : M (option response) :=
  _session_action self "listallDomains" None.

(** [response[key]] where [response] is what [_session_action] returned:
    subscripting [None] is a [TypeError]. *)
Definition subscripted (resp : option response) : M response :=
  match resp with
  | Some r => ret r
  | None => raise TypeError
  end.

Definition info_dns_records (self : loc) (domainname : string) : M loc :=
  response <- _session_action self "infoDnsRecords"
                (Some [("domainname", PStr domainname)]) ;;
  r <- subscripted response ;;
  if negb (Z.eqb (status r) 200) then
    raise (ServerResponseError
             "Unable to retrieve DNS records (no HTTP 200):" []
             (Some (as_pair r)))
  else
    st <- lift (Py.subscript (data r) "status") ;;
    if differs_from_str st "success" then
      longmessage <- lift (Py.subscript (data r) "longmessage") ;;
      raise (ServerResponseError
               "Unable to retrieve DNS records (no 'success' status): %s"
               [longmessage] None)
    else
      responsedata <- lift (Py.subscript (data r) "responsedata") ;;
      DNSRecordSet.deserialize domainname responsedata.

Definition update_dns_records (self : loc) (dns_records : loc) : M loc :=
  domainname <- DNSRecordSet.get_domainname dns_records ;;
  dnsrecordset <- DNSRecordSet.serialize dns_records ;;
  response <- _session_action self "updateDnsRecords"
                (Some [("domainname", PStr domainname);
                       ("dnsrecordset", dnsrecordset)]) ;;
  r <- subscripted response ;;
  proceed <- (if Z.eqb (status r) 200 then ret true
              else st <- lift (Py.subscript (data r) "status") ;;
                   ret (differs_from_str st "ok")) ;;
  if (proceed : bool) then
    domainname <- DNSRecordSet.get_domainname dns_records ;;
    responsedata <- lift (Py.subscript (data r) "responsedata") ;;
    DNSRecordSet.deserialize domainname responsedata
  else
    raise (ServerResponseError "Unable to update DNS records:" []
             (Some (as_pair r))).

Definition __enter__ (self : loc) : M loc :=
  login self ;; ret self.

Definition __exit__ (self : loc) : M unit :=
  logout self ;; ret tt.

Section Zone.
(** The class [DNSZone] is in another file of the package; what the
    connection uses of it is a parameter: the property [domainname], the
    method [serialize] and the class method [deserialize]. *)
Variable DNSZone : Type.
Variable zone_domainname : DNSZone -> M string.
Variable zone_serialize : DNSZone -> M pyval.
Variable zone_deserialize : pyval -> M DNSZone.

Definition info_dns_zone (self : loc) (domainname : string) : M DNSZone :=
  response <- _session_action self "infoDnsZone"
                (Some [("domainname", PStr domainname)]) ;;
  r <- subscripted response ;;
  if negb (Z.eqb (status r) 200) then
    raise (ServerResponseError "Unable to retrieve DNS zone:" []
             (Some (as_pair r)))
  else
    responsedata <- lift (Py.subscript (data r) "responsedata") ;;
    zone_deserialize responsedata.

Definition update_dns_zone (self : loc) (dns_zone : DNSZone) : M DNSZone :=
  domainname <- zone_domainname dns_zone ;;
  dnszone <- zone_serialize dns_zone ;;
  response <- _session_action self "updateDnsZone"
                (Some [("domainname", PStr domainname);
                       ("dnszone", dnszone)]) ;;
  r <- subscripted response ;;
  if Z.eqb (status r) 200 then
    responsedata <- lift (Py.subscript (data r) "responsedata") ;;
    zone_deserialize responsedata
  else
    raise (ServerResponseError "Unable to update DNS zone:" []
             (Some (as_pair r))).
End Zone.

End Transport.

End NetcupConnection.

(** * Vocabulary of the statements *)

Import DNSRecord DNSRecordSet_obj NetcupConnection_obj.

Definition omitted (r : DNSRecord) : Prop :=
  deleted r = true /\ record_id r = None.

Definition parsed_priority (p : Z) : option Z :=
  if Z.eqb p 0 then None else Some p.

Definition fresh_record : DNSRecord := new "A" "www" "192.0.2.1" None.
Definition zero_priority_record : DNSRecord :=
  mk (Some 7) "MX" "@" "mail.example.com" (Some 0) false.

(** Reading never changes the state, whatever the reference holds. *)
Definition read_only {A} (m : M A) : Prop := forall w, snd (m w) = w.

(** The records a list of references points to. *)
Definition points_to (w : world) (ls : list loc) (rs : list DNSRecord) : Prop :=
  Forall2 (fun l r => objects w !! l = Some (ObjRecord r)) ls rs.

Definition example_store : world :=
  World (<[1%positive := ObjRecordSet (mk_set "example.com" [2; 3; 4]%positive)]>
         (<[2%positive := ObjRecord (mk (Some 11) "A" "www" "192.0.2.1" None false)]>
         (<[3%positive := ObjRecord (mk None "A" "www" "192.0.2.2" None true)]>
         (<[4%positive := ObjRecord (mk (Some 12) "MX" "@" "mail.example.com" (Some 10) true)]>
          ∅))))
        [].

Definition delete_matching (hostname : string) (record : loc) : M unit :=
  record_hostname <- call_record record DNSRecord.hostname ;;
  if String.eqb record_hostname hostname
  then update_record record DNSRecord.delete
  else ret tt.

(** What the loop of [delete_hostname] does to each object. *)
Definition marked (hn : string) (ls : list loc) (l : loc) (o : option object)
    : option object :=
  match o with
  | Some (ObjRecord r) =>
      if decide (l ∈ ls /\ hostname r = hn) then Some (ObjRecord (delete r))
      else Some (ObjRecord r)
  | _ => o
  end.

Definition session_warning : string :=
  "Cannot execute '%s' without a valid session.".

Definition warned (w : world) : world :=
  World (objects w) (stderr w ++ [session_warning]).

Definition new_connection : NetcupConnection :=
  mk_connection "https://ccp.netcup.net/run/webservice/servers/endpoint.php?JSON"
                "12345" "key" "password" PNone.

Definition offline_store : world :=
  World (<[5%positive := ObjConnection new_connection]> (objects example_store)) [].

(** The parameters [_session_action] sends. *)
Definition session_params (c : NetcupConnection) (params : dict) : dict :=
  Py.dict_set "customernumber" (PStr (customer c))
    (Py.dict_set "apisessionid" (_session_id c)
       (Py.dict_set "apikey" (PStr (api_key c)) params)).

(** The path of [update_dns_records] that hands the answer's
    ["responsedata"] to [DNSRecordSet.deserialize]. *)
Definition accept (dns_records : loc) (body : pyval) : M loc :=
  domainname <- DNSRecordSet.get_domainname dns_records ;;
  responsedata <- lift (Py.subscript body "responsedata") ;;
  DNSRecordSet.deserialize domainname responsedata.

Definition session_store : world :=
  World (<[5%positive :=
             ObjConnection
               (mk_connection (_uri new_connection) "12345" "key" "password"
                              (PStr "session-1"))]>
           (objects example_store)) [].

(** A provider that gives one answer to every request. *)
Definition answering (status : Z) (body : pyval)
    : string -> pyval -> outcome (Z * pyval) :=
  fun _ _ => Ret (status, body).

Definition refusal (responsedata : pyval) : pyval :=
  PDict [("status", PStr "error");
         ("longmessage", PStr "Validation Error.");
         ("responsedata", responsedata)].

(** ** Vocabulary of the further properties *)

(** What a priority becomes on its way through the wire format. *)
Definition wire_priority (p : option Z) : option Z :=
  match p with
  | Some p' => parsed_priority p'
  | None => None
  end.

(** The priority entry of a payload, if there is one, parses. *)
Definition priority_parses (d : dict) : Prop :=
  match Py.dict_get "priority" d with
  | Some v => exists p, Py.int v = Ret p
  | None => True
  end.

Definition id_parses (d : dict) : Prop :=
  exists v i, Py.dict_get "id" d = Some v /\ Py.int v = Ret i.

(** What the loop of [delete_all] does to each object. *)
Definition deleted_in (ls : list loc) (l : loc) (o : option object)
    : option object :=
  match o with
  | Some (ObjRecord r) =>
      if decide (l ∈ ls) then Some (ObjRecord (delete r)) else Some (ObjRecord r)
  | _ => o
  end.

(** The payload entries that say which record is meant and that it is to
    be deleted. *)
Definition delete_instruction (r : DNSRecord) (p : dict) : Prop :=
  exists i, record_id r = Some i /\
            Py.dict_get "id" p = Some (PInt i) /\
            Py.dict_get "type" p = Some (PStr (record_type r)) /\
            Py.dict_get "hostname" p = Some (PStr (hostname r)) /\
            Py.dict_get "destination" p = Some (PStr (destination r)) /\
            Py.dict_get "deleterecord" p = Some (PBool true).

(** The body of the loop of [DNSRecordSet.deserialize]. *)
Definition deserialize_item (record_set : loc) (record_data : pyval) : M unit :=
  r <- lift (DNSRecord.deserialize record_data) ;;
  record <- alloc (ObjRecord r) ;;
  DNSRecordSet.add record_set (Ref record) ;; ret tt.

(** Every item of a list deserializes, to these records. *)
Definition deserialize_all (items : list pyval) (rs : list DNSRecord) : Prop :=
  Forall2 (fun item r => DNSRecord.deserialize item = Ret r) items rs.

Definition fetched_item : pyval :=
  PDict [("id", PStr "5"); ("type", PStr "MX"); ("hostname", PStr "@");
         ("destination", PStr "mail.example.com"); ("priority", PStr "0")].

Definition fetched_payload : dict := [("dnsrecords", PList [fetched_item])].

(** The request a session-scoped action posts, and the request of
    [login]. *)
Definition session_request (c : NetcupConnection) (action_name : string)
    (params : option dict) : pyval :=
  PDict [("action", PStr action_name);
         ("param", PDict (session_params c (default [] params)))].

Definition login_request (c : NetcupConnection) : pyval :=
  PDict [("action", PStr "login");
         ("param", PDict [("apikey", PStr (api_key c));
                          ("apipassword", PStr (api_password c));
                          ("customernumber", PStr (customer c))])].

(** The connection after its session id was assigned. *)
Definition with_session (c : NetcupConnection) (session_id : pyval)
    : NetcupConnection :=
  mk_connection (_uri c) (customer c) (api_key c) (api_password c) session_id.

(** What a transport answer becomes in [_action]. *)
Definition answered {A} (answer : outcome (Z * pyval))
    (k : NetcupConnection.response -> M A) : M A :=
  match answer with
  | Ret (st, body) => k (NetcupConnection.Response st body)
  | Raise e => raise e
  end.

(** A record that [dump] can print: not an MX record without priority. *)
Definition dumpable (r : DNSRecord) : Prop :=
  Py.upper (record_type r) <> "MX" \/ priority r <> None.

(** The request of [update_dns_records] for a domain and the payloads of
    its records. *)
Definition update_request (c : NetcupConnection) (dn : string)
    (payloads : list dict) : pyval :=
  session_request c "updateDnsRecords"
    (Some [("domainname", PStr dn);
           ("dnsrecordset", PDict [("dnsrecords", PList (map PDict payloads))])]).

(** * Properties *)

(** ** Dictionaries *)

Lemma dict_get_set_eq k v d : Py.dict_get k (Py.dict_set k v d) = Some v.
Proof.
  induction d as [|[k' v'] d IH]; simpl.
  - by rewrite String.eqb_refl.
  - destruct (String.eqb k' k) eqn:E; simpl; rewrite E; [done | apply IH].
Qed.

Lemma dict_get_set_ne k k' v d :
  k <> k' -> Py.dict_get k' (Py.dict_set k v d) = Py.dict_get k' d.
Proof.
  intros Hne. induction d as [|[k0 v0] d IH]; simpl.
  - destruct (String.eqb_spec k k'); [contradiction | done].
  - destruct (String.eqb_spec k0 k) as [->|Hk]; simpl.
    + destruct (String.eqb_spec k k'); [contradiction | done].
    + destruct (String.eqb_spec k0 k'); [done | apply IH].
Qed.

Lemma dict_contains_get k d :
  Py.dict_contains k d = true <-> is_Some (Py.dict_get k d).
Proof.
  unfold Py.dict_contains.
  destruct (Py.dict_get k d); split; intros H; try done; by destruct H.
Qed.

(** ** The record constructor *)

(** C5. The new-record constructor builds a record without id, holding the
    type, hostname and destination it was given and not marked deleted; its
    priority is 10 when the upper-cased type is "MX" and no priority was
    passed, and it is the passed priority (None included) in every other
    case. *)
Theorem new_record_priority (record_type hostname destination : string) :
  (forall p,
     let r := new record_type hostname destination p in
     record_id r = None /\ DNSRecord.record_type r = record_type /\
     DNSRecord.hostname r = hostname /\ DNSRecord.destination r = destination /\
     deleted r = false) /\
  (Py.upper record_type = "MX" ->
     priority (new record_type hostname destination None) = Some 10) /\
  (forall p, Py.upper record_type <> "MX" \/ p <> None ->
     priority (new record_type hostname destination p) = p).
Proof.
  split; [|split].
  - intros p. unfold new. by repeat split.
  - intros Hmx. unfold new. rewrite Hmx. reflexivity.
  - intros p Hcase. unfold new; simpl.
    destruct (String.eqb_spec (Py.upper record_type) "MX") as [Hmx|Hmx].
    + destruct p as [z|]; [reflexivity|]. destruct Hcase; contradiction.
    + done.
Qed.

Lemma new_record_priority_witness :
  priority (new "mx" "@" "mail.example.com" None) = Some 10 /\
  priority (new "A" "www" "192.0.2.1" None) = None /\
  priority (new "Mx" "@" "mail.example.com" (Some 20)) = Some 20.
Proof.
  split; [|split].
  - apply (proj1 (proj2 (new_record_priority "mx" "@" "mail.example.com"))).
    reflexivity.
  - apply (proj2 (proj2 (new_record_priority "A" "www" "192.0.2.1")) None).
    left. simpl. discriminate.
  - apply (proj2 (proj2 (new_record_priority "Mx" "@" "mail.example.com"))
             (Some 20)).
    right. discriminate.
Defined.

(** ** Equality and hashing *)

Lemma eq_iff_cmpkey (a b : DNSRecord) :
  __eq__ a (Instance_ b) = true <-> _cmpkey a = _cmpkey b.
Proof.
  unfold __eq__, cmpkey_eqb; simpl. apply bool_decide_eq_true.
Qed.

(** C6. Two records are equal exactly when their (type, hostname,
    destination, priority) keys are the same; the id and the delete flag take
    no part in equality or in the hash, equal records have equal hashes, and
    records with different destinations are unequal. *)
Theorem record_equality (hash : string * string * string * option Z -> Z)
    (a b : DNSRecord) :
  (__eq__ a (Instance_ b) = true <->
     (record_type a, hostname a, destination a, priority a) =
     (record_type b, hostname b, destination b, priority b)) /\
  (forall id1 id2 del1 del2 t h d p,
     __eq__ (mk id1 t h d p del1) (Instance_ (mk id2 t h d p del2)) = true /\
     __hash__ hash (mk id1 t h d p del1) = __hash__ hash (mk id2 t h d p del2)) /\
  (__eq__ a (Instance_ b) = true -> __hash__ hash a = __hash__ hash b) /\
  (destination a <> destination b -> __eq__ a (Instance_ b) = false) /\
  __eq__ a NotInstance = false.
Proof.
  split; [apply eq_iff_cmpkey|]. split; [|split; [|split]].
  - intros. split; [by apply eq_iff_cmpkey | reflexivity].
  - intros Heq. apply eq_iff_cmpkey in Heq. unfold __hash__. by rewrite Heq.
  - intros Hne. apply not_true_is_false. intros Heq.
    apply eq_iff_cmpkey in Heq. unfold _cmpkey in Heq. congruence.
  - reflexivity.
Qed.

Lemma record_equality_witness :
  __eq__ (mk (Some 1) "A" "www" "1.2.3.4" None false)
         (Instance_ (mk (Some 2) "A" "www" "1.2.3.4" None true)) = true /\
  __eq__ (mk (Some 1) "A" "www" "1.2.3.4" None false)
         (Instance_ (mk (Some 1) "A" "www" "5.6.7.8" None false)) = false.
Proof.
  split.
  - apply (proj1 (record_equality (fun _ => 0)
                    (mk (Some 1) "A" "www" "1.2.3.4" None false)
                    (mk (Some 2) "A" "www" "1.2.3.4" None true))).
    reflexivity.
  - apply (proj1 (proj2 (proj2 (proj2 (record_equality (fun _ => 0)
                    (mk (Some 1) "A" "www" "1.2.3.4" None false)
                    (mk (Some 1) "A" "www" "5.6.7.8" None false)))))).
    simpl. discriminate.
Defined.

(** ** Serializing one record *)

Lemma serialize_None_iff (r : DNSRecord) : serialize r = None <-> omitted r.
Proof.
  unfold serialize, omitted.
  destruct (deleted r), (record_id r), (priority r); simpl;
    split; intros H; try discriminate; try done;
    destruct H; discriminate.
Qed.

Lemma serialize_Some_fields (r : DNSRecord) (d : dict) :
  serialize r = Some d ->
  Py.dict_get "id" d = Some (Py.of_optional_int (record_id r)) /\
  Py.dict_get "type" d = Some (PStr (record_type r)) /\
  Py.dict_get "hostname" d = Some (PStr (hostname r)) /\
  Py.dict_get "destination" d = Some (PStr (destination r)) /\
  Py.dict_get "deleterecord" d = Some (PBool (deleted r)) /\
  Py.dict_get "state" d = Some PNone /\
  Py.dict_get "priority" d = PInt <$> priority r /\
  Py.dict_keys d =
    (["id"; "type"; "hostname"; "destination"; "deleterecord"; "state"]
     ++ match priority r with Some _ => ["priority"] | None => [] end)%list.
Proof.
  unfold serialize.
  destruct (deleted r && bool_decide (record_id r = None)); [discriminate|].
  intros [= <-]. destruct (priority r); simpl; repeat split; reflexivity.
Qed.

(** ** Deserializing one record *)

Lemma str_field_Ret k d s :
  str_field k d = Ret s <-> Py.dict_get k d = Some (PStr s).
Proof.
  unfold str_field, Py.dict_item.
  destruct (Py.dict_get k d) as [[]|]; simpl; split; congruence.
Qed.

(** The result of [deserialize] in terms of the payload's entries. *)
Lemma deserialize_Ret (d : dict) (r : DNSRecord) :
  deserialize (PDict d) = Ret r <->
  exists id_v i,
    Py.dict_get "id" d = Some id_v /\ Py.int id_v = Ret i /\
    match Py.dict_get "priority" d with
    | Some v => exists p, Py.int v = Ret p /\ priority r = parsed_priority p
    | None => priority r = None
    end /\
    Py.dict_get "type" d = Some (PStr (record_type r)) /\
    Py.dict_get "hostname" d = Some (PStr (hostname r)) /\
    Py.dict_get "destination" d = Some (PStr (destination r)) /\
    record_id r = Some i /\
    deleted r = Py.truthy (Py.get "delete" d).
Proof.
  unfold deserialize, Py.dict_contains, Py.dict_item, parsed_priority.
  split.
  - intros H.
    destruct (Py.dict_get "priority" d) as [pv|] eqn:Hp; simpl in H.
    + destruct (Py.int pv) as [p|] eqn:Hpi; simpl in H; [|discriminate].
      destruct (Py.dict_get "id" d) as [iv|] eqn:Hid; simpl in H; [|discriminate].
      destruct (Py.int iv) as [i|] eqn:Hint; simpl in H; [|discriminate].
      destruct (str_field "type" d) as [t|] eqn:Ht; simpl in H; [|discriminate].
      destruct (str_field "hostname" d) as [h|] eqn:Hh; simpl in H; [|discriminate].
      destruct (str_field "destination" d) as [dst|] eqn:Hd; simpl in H; [|discriminate].
      apply str_field_Ret in Ht, Hh, Hd.
      exists iv, i.
      destruct (Py.truthy (Py.get "delete" d)); simplify_eq; simpl;
        split_and!; try done; by exists p.
    + destruct (Py.dict_get "id" d) as [iv|] eqn:Hid; simpl in H; [|discriminate].
      destruct (Py.int iv) as [i|] eqn:Hint; simpl in H; [|discriminate].
      destruct (str_field "type" d) as [t|] eqn:Ht; simpl in H; [|discriminate].
      destruct (str_field "hostname" d) as [h|] eqn:Hh; simpl in H; [|discriminate].
      destruct (str_field "destination" d) as [dst|] eqn:Hd; simpl in H; [|discriminate].
      apply str_field_Ret in Ht, Hh, Hd.
      exists iv, i.
      destruct (Py.truthy (Py.get "delete" d)); simplify_eq; simpl;
        split_and!; done.
  - intros (iv & i & Hid & Hint & Hprio & Ht & Hh & Hd & Hrid & Hdel).
    apply str_field_Ret in Ht, Hh, Hd.
    rewrite Hid; simpl. rewrite Hint, Ht, Hh, Hd; simpl.
    destruct r as [rid rt rh rd rp rdel]; simpl in *. subst rid rdel.
    destruct (Py.dict_get "priority" d) as [pv|]; simpl.
    + destruct Hprio as (p & -> & ->); simpl.
      by destruct (Py.truthy (Py.get "delete" d)).
    + subst rp. by destruct (Py.truthy (Py.get "delete" d)).
Qed.

(** C4. On a payload mapping, the priority entry is parsed as an integer when
    present and the parsed value 0 becomes None; without the entry the
    priority is None; the id is the integer parsed from the id entry, also
    when it or the priority is a string; the record is marked deleted exactly
    when the delete entry is truthy.  A payload with an id entry that parses,
    string-valued type, hostname and destination, and a priority entry that,
    if present, parses, does yield a record.  The payload with id "5" and
    priority "0" yields id 5 and priority None. *)
Theorem deserialize_contract (d : dict) :
  (forall r, deserialize (PDict d) = Ret r ->
     (forall v, Py.dict_get "priority" d = Some v ->
        exists p, Py.int v = Ret p /\
                  priority r = if Z.eqb p 0 then None else Some p) /\
     (Py.dict_get "priority" d = None -> priority r = None) /\
     (exists v i, Py.dict_get "id" d = Some v /\ Py.int v = Ret i /\
                  record_id r = Some i) /\
     (deleted r = true <->
        exists v, Py.dict_get "delete" d = Some v /\ Py.truthy v = true)) /\
  (forall id_v i t h dst,
     Py.dict_get "id" d = Some id_v -> Py.int id_v = Ret i ->
     Py.dict_get "type" d = Some (PStr t) ->
     Py.dict_get "hostname" d = Some (PStr h) ->
     Py.dict_get "destination" d = Some (PStr dst) ->
     (forall v, Py.dict_get "priority" d = Some v -> exists p, Py.int v = Ret p) ->
     exists r, deserialize (PDict d) = Ret r /\
               record_id r = Some i /\ record_type r = t /\ hostname r = h /\
               destination r = dst) /\
  (forall s z, Py.int_of_str s = Some z -> Py.int (PStr s) = Ret z) /\
  deserialize
    (PDict [("id", PStr "5"); ("type", PStr "MX"); ("hostname", PStr "@");
            ("destination", PStr "mail.example.com"); ("priority", PStr "0")])
  = Ret (mk (Some 5) "MX" "@" "mail.example.com" None false).
Proof.
  split; [|split; [|split]].
  - intros r Hr. apply deserialize_Ret in Hr.
    destruct Hr as (iv & i & Hid & Hint & Hprio & _ & _ & _ & Hrid & Hdel).
    repeat split.
    + intros v Hv. rewrite Hv in Hprio. exact Hprio.
    + intros Hnone. by rewrite Hnone in Hprio.
    + by exists iv, i.
    + rewrite Hdel. unfold Py.get.
      destruct (Py.dict_get "delete" d) as [v|]; simpl.
      * intros Hv. by exists v.
      * discriminate.
    + rewrite Hdel. unfold Py.get. intros (v & -> & Hv). exact Hv.
  - intros iv i t h dst Hid Hint Ht Hh Hd Hprio.
    set (p := match Py.dict_get "priority" d with
              | Some v => match Py.int v with
                          | Ret p => parsed_priority p
                          | Raise _ => None
                          end
              | None => None
              end).
    exists (mk (Some i) t h dst p
               (Py.truthy (Py.get "delete" d))).
    split; [|done].
    apply deserialize_Ret. exists iv, i. simpl. split_and!; try done.
    subst p. destruct (Py.dict_get "priority" d) as [v|]; [|done].
    destruct (Hprio v eq_refl) as [q Hq]. exists q. by rewrite Hq.
  - intros s z Hs. simpl. by rewrite Hs.
  - vm_compute. reflexivity.
Qed.

Lemma deserialize_contract_witness :
  exists r,
    deserialize (PDict [("id", PStr "17"); ("type", PStr "A");
                        ("hostname", PStr "www");
                        ("destination", PStr "192.0.2.1");
                        ("delete", PBool true)]) = Ret r /\
    record_id r = Some 17 /\ record_type r = "A" /\ hostname r = "www" /\
    destination r = "192.0.2.1".
Proof.
  apply (proj1 (proj2 (deserialize_contract _)) (PStr "17") 17 "A" "www" "192.0.2.1");
    try reflexivity.
  intros v Hv. discriminate Hv.
Defined.

(** ** Serialize, then deserialize *)

(** A record that never had an id does not survive the round trip: its
    payload carries [id: None], which [deserialize] cannot parse.  A record
    with priority 0 comes back with priority None, and is not equal to the
    one that was serialized. *)
Lemma roundtrip_counterexample :
  (deleted fresh_record = false /\
   exists d, serialize fresh_record = Some d /\
             deserialize (PDict d) = Raise TypeError) /\
  (deleted zero_priority_record = false /\
   exists d r', serialize zero_priority_record = Some d /\
                deserialize (PDict d) = Ret r' /\
                priority r' = None /\
                __eq__ r' (Instance_ zero_priority_record) = false).
Proof.
  split.
  - split; [reflexivity|]. eexists. split; reflexivity.
  - split; [reflexivity|]. eexists. eexists.
    split; [reflexivity|]. split; [vm_compute; reflexivity|].
    split; reflexivity.
Qed.

(** C1 (amended). A record that is not marked deleted, has an id and has a
    priority other than 0 is reproduced, field by field, by deserializing
    its serialized payload, and the result is equal to it; a record without
    priority is serialized without a priority entry; a priority entry of 0
    deserializes to None. *)
Theorem roundtrip (r : DNSRecord) :
  deleted r = false -> record_id r <> None -> priority r <> Some 0 ->
  exists d,
    serialize r = Some d /\
    deserialize (PDict d) = Ret r /\
    __eq__ r (Instance_ r) = true /\
    (priority r = None -> Py.dict_contains "priority" d = false) /\
    (forall d0 r0, Py.dict_get "priority" d0 = Some (PInt 0) ->
                   deserialize (PDict d0) = Ret r0 -> priority r0 = None).
Proof.
  intros Hdel Hid Hprio.
  destruct r as [[i|] t h dst p del]; simpl in *; [|done]. subst del.
  assert (Hwire : forall d0 r0, Py.dict_get "priority" d0 = Some (PInt 0) ->
                    deserialize (PDict d0) = Ret r0 -> priority r0 = None).
  { intros d0 r0 H0 Hr0. apply deserialize_Ret in Hr0.
    destruct Hr0 as (_ & _ & _ & _ & Hp & _). rewrite H0 in Hp.
    destruct Hp as (q & [= <-] & ->). reflexivity. }
  destruct p as [p|].
  - assert (Hp : Z.eqb p 0 = false) by (apply Z.eqb_neq; congruence).
    eexists. split; [reflexivity|]. split.
    + unfold deserialize; simpl. rewrite Hp. reflexivity.
    + split; [by apply eq_iff_cmpkey|]. split; [discriminate | exact Hwire].
  - eexists. split; [reflexivity|]. split; [reflexivity|].
    split; [by apply eq_iff_cmpkey|]. split; [reflexivity | exact Hwire].
Qed.

Lemma roundtrip_witness :
  exists d,
    serialize (mk (Some 5) "MX" "@" "mail.example.com" (Some 10) false) = Some d /\
    deserialize (PDict d)
    = Ret (mk (Some 5) "MX" "@" "mail.example.com" (Some 10) false).
Proof.
  destruct (roundtrip (mk (Some 5) "MX" "@" "mail.example.com" (Some 10) false))
    as (d & Hs & Hd & _); [reflexivity | discriminate | discriminate |].
  exists d. split; assumption.
Defined.

(** ** Running computations on the object store *)

Lemma bind_Ret {A B} (m : M A) (k : A -> M B) w a w' :
  m w = (Ret a, w') -> bind m k w = k a w'.
Proof. intros H. unfold bind. by rewrite H. Qed.

Lemma bind_Raise {A B} (m : M A) (k : A -> M B) w e w' :
  m w = (Raise e, w') -> bind m k w = (Raise e, w').
Proof. intros H. unfold bind. by rewrite H. Qed.

Lemma read_record_Ret l r w :
  objects w !! l = Some (ObjRecord r) -> read_record l w = (Ret r, w).
Proof. intros H. unfold read_record, bind, load. by rewrite H. Qed.

Lemma read_set_Ret l s w :
  objects w !! l = Some (ObjRecordSet s) -> read_set l w = (Ret s, w).
Proof. intros H. unfold read_set, bind, load. by rewrite H. Qed.

Lemma read_connection_Ret l c w :
  objects w !! l = Some (ObjConnection c) -> read_connection l w = (Ret c, w).
Proof. intros H. unfold read_connection, bind, load. by rewrite H. Qed.

Lemma call_record_Ret {A} l r (method : DNSRecord -> A) w :
  objects w !! l = Some (ObjRecord r) -> call_record l method w = (Ret (method r), w).
Proof.
  intros H. unfold call_record. by rewrite (bind_Ret _ _ _ _ _ (read_record_Ret _ _ _ H)).
Qed.

Lemma read_only_ret {A} (a : A) : read_only (ret a).
Proof. done. Qed.

Lemma read_only_raise {A} e : read_only (@raise A e).
Proof. done. Qed.

Lemma read_only_load l : read_only (load l).
Proof. intros w. unfold load. by destruct (objects w !! l). Qed.

Lemma read_only_bind {A B} (m : M A) (k : A -> M B) :
  read_only m -> (forall a, read_only (k a)) -> read_only (bind m k).
Proof.
  intros Hm Hk w. unfold bind. specialize (Hm w).
  destruct (m w) as [[a|e] w']; simpl in Hm; subst w'; [apply Hk | done].
Qed.

Lemma read_only_read_record l : read_only (read_record l).
Proof.
  apply read_only_bind; [apply read_only_load|].
  intros []; [apply read_only_ret | apply read_only_raise..].
Qed.

Lemma read_only_read_set l : read_only (read_set l).
Proof.
  apply read_only_bind; [apply read_only_load|].
  intros []; [apply read_only_raise | apply read_only_ret | apply read_only_raise].
Qed.

Lemma read_only_call_record {A} l (method : DNSRecord -> A) :
  read_only (call_record l method).
Proof.
  apply read_only_bind; [apply read_only_read_record|].
  intros r. apply read_only_ret.
Qed.

Lemma read_only_comprehension {A B} (f : A -> M B) xs :
  (forall x, read_only (f x)) -> read_only (comprehension f xs).
Proof.
  intros Hf. induction xs as [|x xs IH]; simpl; [apply read_only_ret|].
  apply read_only_bind; [apply Hf|]. intros y.
  apply read_only_bind; [apply IH|]. intros ys. apply read_only_ret.
Qed.

Lemma read_only_serialize self : read_only (DNSRecordSet.serialize self).
Proof.
  apply read_only_bind; [apply read_only_read_set|]. intros s.
  apply read_only_bind; [|intros; apply read_only_ret].
  apply read_only_comprehension. intros l. apply read_only_call_record.
Qed.

Lemma read_only_twice {A} (m : M A) w : read_only m -> m (snd (m w)) = m w.
Proof. intros H. by rewrite H. Qed.

(** C10. Serializing a record or a record set leaves the whole state as it
    was (every object, hence every field of every record and the sequence of
    every set), and a second call on the state the first one left returns
    the same payload. *)
Theorem serialize_has_no_effect (w : world) (record self : loc) :
  snd (call_record record DNSRecord.serialize w) = w /\
  snd (DNSRecordSet.serialize self w) = w /\
  call_record record DNSRecord.serialize
    (snd (call_record record DNSRecord.serialize w))
  = call_record record DNSRecord.serialize w /\
  DNSRecordSet.serialize self (snd (DNSRecordSet.serialize self w))
  = DNSRecordSet.serialize self w.
Proof.
  split_and!.
  - apply read_only_call_record.
  - apply read_only_serialize.
  - apply read_only_twice, read_only_call_record.
  - apply read_only_twice, read_only_serialize.
Qed.

(** ** Serializing a record set *)

Lemma comprehension_call_record {A} (method : DNSRecord -> A) w ls rs :
  points_to w ls rs ->
  comprehension (fun l => call_record l method) ls w = (Ret (map method rs), w).
Proof.
  induction 1 as [|l r ls rs Hl _ IH]; simpl; [done|].
  rewrite (bind_Ret _ _ _ _ _ (call_record_Ret _ _ _ _ Hl)).
  by rewrite (bind_Ret _ _ _ _ _ IH).
Qed.

Lemma kept_payloads (rs : list DNSRecord) :
  Forall2 (fun r p => serialize r = Some p)
          (filter (fun r => is_Some (serialize r)) rs)
          (omap (fun record => record) (map serialize rs)).
Proof.
  induction rs as [|r rs IH]; simpl; [constructor|].
  rewrite filter_cons. destruct (serialize r) as [p|] eqn:Hp.
  - rewrite decide_True by (by eexists). by constructor.
  - rewrite decide_False by (by intros [? ?]). exact IH.
Qed.

Lemma set_serialize_Ret w self s rs :
  objects w !! self = Some (ObjRecordSet s) ->
  points_to w (_records s) rs ->
  DNSRecordSet.serialize self w
  = (Ret (PDict [("dnsrecords",
                  PList (map PDict (omap (fun record => record)
                                         (map serialize rs))))]), w).
Proof.
  intros Hself Hrs. unfold DNSRecordSet.serialize.
  rewrite (bind_Ret _ _ _ _ _ (read_set_Ret _ _ _ Hself)).
  by rewrite (bind_Ret _ _ _ _ _ (comprehension_call_record _ _ _ _ Hrs)).
Qed.

(** C3. [DNSRecord.serialize] gives the omit result exactly for a record
    that is marked deleted and has no id; otherwise it gives a mapping with
    id, type, hostname, destination, deleterecord (the delete flag) and state
    (None), and with priority exactly when the record has one, and no other
    key.  [DNSRecordSet.serialize] returns [{"dnsrecords": payloads}] where
    [payloads] are the mappings of the records that are not omitted, in the
    order of the set. *)
Theorem serialize_contract (r : DNSRecord) (w : world) (self : loc)
    (s : DNSRecordSet) (rs : list DNSRecord) :
  (serialize r = None <-> deleted r = true /\ record_id r = None) /\
  (forall d, serialize r = Some d ->
     Py.dict_get "id" d = Some (Py.of_optional_int (record_id r)) /\
     Py.dict_get "type" d = Some (PStr (record_type r)) /\
     Py.dict_get "hostname" d = Some (PStr (hostname r)) /\
     Py.dict_get "destination" d = Some (PStr (destination r)) /\
     Py.dict_get "deleterecord" d = Some (PBool (deleted r)) /\
     Py.dict_get "state" d = Some PNone /\
     Py.dict_get "priority" d = PInt <$> priority r /\
     Py.dict_keys d =
       (["id"; "type"; "hostname"; "destination"; "deleterecord"; "state"]
        ++ match priority r with Some _ => ["priority"] | None => [] end)%list) /\
  (objects w !! self = Some (ObjRecordSet s) ->
   points_to w (_records s) rs ->
   exists payloads,
     DNSRecordSet.serialize self w
     = (Ret (PDict [("dnsrecords", PList (map PDict payloads))]), w) /\
     Forall2 (fun r p => serialize r = Some p)
             (filter (fun r => is_Some (serialize r)) rs) payloads).
Proof.
  split; [apply serialize_None_iff|]. split; [apply serialize_Some_fields|].
  intros Hself Hrs.
  exists (omap (fun record => record) (map serialize rs)).
  split; [by apply set_serialize_Ret with (s := s) | apply kept_payloads].
Qed.

Lemma serialize_contract_witness :
  exists payloads,
    DNSRecordSet.serialize 1%positive example_store
    = (Ret (PDict [("dnsrecords", PList (map PDict payloads))]), example_store) /\
    Forall2 (fun r p => serialize r = Some p)
      (filter (fun r => is_Some (serialize r))
         [mk (Some 11) "A" "www" "192.0.2.1" None false;
          mk None "A" "www" "192.0.2.2" None true;
          mk (Some 12) "MX" "@" "mail.example.com" (Some 10) true])
      payloads.
Proof.
  apply (proj2 (proj2 (serialize_contract fresh_record example_store 1%positive
                         (mk_set "example.com" [2; 3; 4]%positive) _))).
  - reflexivity.
  - repeat constructor.
Defined.

(** ** Deleting by hostname *)

Lemma update_record_Ret l r method w :
  objects w !! l = Some (ObjRecord r) ->
  update_record l method w
  = (Ret tt, World (<[l := ObjRecord (method r)]> (objects w)) (stderr w)).
Proof.
  intros H. unfold update_record.
  by rewrite (bind_Ret _ _ _ _ _ (read_record_Ret _ _ _ H)).
Qed.

(** The state one step of the loop leaves. *)
Lemma delete_matching_step hn a ra w :
  objects w !! a = Some (ObjRecord ra) ->
  exists w1,
    delete_matching hn a w = (Ret tt, w1) /\ stderr w1 = stderr w /\
    objects w1 !! a
    = Some (ObjRecord (if decide (hostname ra = hn) then delete ra else ra)) /\
    forall l, l <> a -> objects w1 !! l = objects w !! l.
Proof.
  intros Ha. unfold delete_matching.
  rewrite (bind_Ret _ _ _ _ _ (call_record_Ret _ _ _ _ Ha)).
  destruct (String.eqb_spec (hostname ra) hn) as [Heq|Hne].
  - rewrite (update_record_Ret _ _ _ _ Ha). eexists. split; [done|]. simpl.
    rewrite decide_True by done. split; [done|]. split.
    + apply lookup_insert_eq.
    + intros l Hl. by apply lookup_insert_ne.
  - exists w. rewrite decide_False by done. by split_and!.
Qed.

Lemma delete_hostname_loop hn ls : forall w,
  (forall l, l ∈ ls -> exists r, objects w !! l = Some (ObjRecord r)) ->
  exists w',
    for_each ls (delete_matching hn) w = (Ret tt, w') /\
    stderr w' = stderr w /\
    forall l, objects w' !! l = marked hn ls l (objects w !! l).
Proof.
  induction ls as [|a ls IH]; intros w Hrec; simpl.
  - exists w. split_and!; try done. intros l. unfold marked.
    by destruct (objects w !! l) as [[r| |]|].
  - destruct (Hrec a) as [ra Ha]; [by left|].
    destruct (delete_matching_step hn a ra w Ha) as (w1 & Hstep & Herr1 & Ha1 & Hother).
    rewrite (bind_Ret _ _ _ _ _ Hstep).
    destruct (IH w1) as (w' & Hloop & Herr & Hobj).
    { intros l Hl. destruct (decide (l = a)) as [->|Hne]; [by eexists|].
      rewrite (Hother l Hne). apply Hrec. by right. }
    exists w'. split; [done|]. split; [congruence|].
    intros l. rewrite Hobj. destruct (decide (l = a)) as [->|Hne].
    + rewrite Ha1, Ha. unfold marked.
      destruct (decide (hostname ra = hn)) as [Hh|Hh].
      * rewrite (decide_True (P := a ∈ a :: ls /\ _)) by (split; [by left | done]).
        by destruct (decide _).
      * rewrite !decide_False; [done | tauto | tauto].
    + rewrite (Hother l Hne). unfold marked.
      destruct (objects w !! l) as [[r| |]|]; try done.
      apply decide_ext. rewrite elem_of_cons. tauto.
Qed.

(** C7. [delete_hostname] returns after setting the delete flag of every
    record of the set whose hostname is the given string (string equality,
    so case matters), changing no other field; records of the set with
    another hostname, records outside the set and all other objects (the set
    itself included) stay as they were. *)
Theorem delete_hostname_marks_exactly (w : world) (self : loc)
    (s : DNSRecordSet) (hn : string) :
  objects w !! self = Some (ObjRecordSet s) ->
  (forall l, l ∈ _records s -> exists r, objects w !! l = Some (ObjRecord r)) ->
  exists w',
    DNSRecordSet.delete_hostname self hn w = (Ret tt, w') /\
    objects w' !! self = Some (ObjRecordSet s) /\
    (forall l, (forall r, objects w !! l <> Some (ObjRecord r)) ->
               objects w' !! l = objects w !! l) /\
    (forall l r, objects w !! l = Some (ObjRecord r) ->
       (l ∈ _records s -> hostname r = hn ->
          objects w' !! l
          = Some (ObjRecord (mk (record_id r) (record_type r) (hostname r)
                                (destination r) (priority r) true))) /\
       (l ∉ _records s \/ hostname r <> hn ->
          objects w' !! l = Some (ObjRecord r))).
Proof.
  intros Hself Hrec.
  destruct (delete_hostname_loop hn (_records s) w Hrec) as (w' & Hloop & _ & Hobj).
  exists w'. split_and!.
  - unfold DNSRecordSet.delete_hostname.
    by rewrite (bind_Ret _ _ _ _ _ (read_set_Ret _ _ _ Hself)).
  - by rewrite Hobj, Hself.
  - intros l Hl. rewrite Hobj. unfold marked.
    destruct (objects w !! l) as [[r| |]|]; try done. by destruct (Hl r).
  - intros l r Hl. rewrite Hobj, Hl. unfold marked. split.
    + intros Hin Hh. by rewrite decide_True.
    + intros Hout. rewrite decide_False; [done | tauto].
Qed.

Lemma delete_hostname_marks_exactly_witness :
  exists w',
    DNSRecordSet.delete_hostname 1%positive "www" example_store = (Ret tt, w') /\
    objects w' !! 2%positive
    = Some (ObjRecord (mk (Some 11) "A" "www" "192.0.2.1" None true)) /\
    objects w' !! 4%positive
    = Some (ObjRecord (mk (Some 12) "MX" "@" "mail.example.com" (Some 10) true)).
Proof.
  destruct (delete_hostname_marks_exactly example_store 1%positive
              (mk_set "example.com" [2; 3; 4]%positive) "www")
    as (w' & Hrun & _ & _ & Hrec).
  - reflexivity.
  - intros l Hl. simpl in Hl. rewrite !elem_of_cons in Hl.
    destruct Hl as [->|[->|[->|Hl]]]; [by eexists..|by apply not_elem_of_nil in Hl].
  - exists w'. split; [exact Hrun|]. split.
    + apply (proj1 (Hrec 2%positive _ eq_refl)); [|reflexivity].
      simpl. rewrite !elem_of_cons. tauto.
    + apply (proj2 (Hrec 4%positive _ eq_refl)). right. discriminate.
Defined.

(** ** Adding a record *)

(** The rejection of [add] is the failure of its [assert]: an AssertionError,
    not a TypeError. *)
Lemma add_rejection_counterexample :
  DNSRecordSet.add 1%positive (Val (PStr "www")) example_store
  = (Raise AssertionError, example_store) /\
  fst (DNSRecordSet.add 1%positive (Val (PStr "www")) example_store)
  <> Raise TypeError.
Proof. split; [reflexivity | discriminate]. Qed.

(** C8 (amended). [add] appends the given record at the end of the set's
    sequence and returns the set it was called on; when the argument is not a
    record the call fails with an AssertionError (the [assert] on its type,
    assertions being executed) and nothing is changed. *)
Theorem add_contract (w : world) (self : loc) (s : DNSRecordSet) (x : pyobj) :
  objects w !! self = Some (ObjRecordSet s) ->
  (forall l r, x = Ref l -> objects w !! l = Some (ObjRecord r) ->
     DNSRecordSet.add self x w
     = (Ret self,
        World (<[self := ObjRecordSet (mk_set (domainname s) (_records s ++ [l]))]>
                 (objects w))
              (stderr w))) /\
  ((forall l r, x = Ref l -> objects w !! l <> Some (ObjRecord r)) ->
     DNSRecordSet.add self x w = (Raise AssertionError, w)).
Proof.
  intros Hself. split.
  - intros l r -> Hl. unfold DNSRecordSet.add, as_record, bind at 1. rewrite Hl.
    by rewrite (bind_Ret _ _ _ _ _ (read_set_Ret _ _ _ Hself)).
  - intros Hnot. unfold DNSRecordSet.add, as_record, bind.
    destruct x as [l|v]; [|done].
    destruct (objects w !! l) as [[r| |]|] eqn:Hl; try done.
    by destruct (Hnot l r).
Qed.

Lemma add_contract_witness :
  DNSRecordSet.add 1%positive (Val (PStr "www")) example_store
  = (Raise AssertionError, example_store) /\
  fst (DNSRecordSet.add 1%positive (Ref 2%positive) example_store) = Ret 1%positive.
Proof.
  split.
  - apply (proj2 (add_contract example_store 1%positive
                    (mk_set "example.com" [2; 3; 4]%positive) _ eq_refl)).
    intros l r Hx. discriminate Hx.
  - rewrite (proj1 (add_contract example_store 1%positive
                      (mk_set "example.com" [2; 3; 4]%positive) _ eq_refl)
               2%positive (mk (Some 11) "A" "www" "192.0.2.1" None false)
               eq_refl eq_refl).
    reflexivity.
Defined.

(** ** Session-scoped actions without a session *)

Section Unauthenticated.
Variable post : string -> pyval -> outcome (Z * pyval).
Variables (w : world) (self : loc) (c : NetcupConnection).
Hypothesis Hself : objects w !! self = Some (ObjConnection c).
Hypothesis Hsession : _session_id c = PNone.

Lemma session_action_unauthenticated action_name params :
  NetcupConnection._session_action post self action_name params w
  = (Ret None, warned w).
Proof.
  unfold NetcupConnection._session_action.
  rewrite (bind_Ret _ _ _ _ _ (read_connection_Ret _ _ _ Hself)).
  by rewrite Hsession.
Qed.

Lemma info_dns_records_unauthenticated domainname :
  NetcupConnection.info_dns_records post self domainname w
  = (Raise TypeError, warned w).
Proof.
  unfold NetcupConnection.info_dns_records.
  by rewrite (bind_Ret _ _ _ _ _ (session_action_unauthenticated _ _)).
Qed.

Lemma update_dns_records_unauthenticated dns_records s rs :
  objects w !! dns_records = Some (ObjRecordSet s) ->
  points_to w (_records s) rs ->
  NetcupConnection.update_dns_records post self dns_records w
  = (Raise TypeError, warned w).
Proof.
  intros Hset Hrs. unfold NetcupConnection.update_dns_records.
  assert (Hdn : DNSRecordSet.get_domainname dns_records w = (Ret (domainname s), w)).
  { unfold DNSRecordSet.get_domainname.
    by rewrite (bind_Ret _ _ _ _ _ (read_set_Ret _ _ _ Hset)). }
  rewrite (bind_Ret _ _ _ _ _ Hdn).
  rewrite (bind_Ret _ _ _ _ _ (set_serialize_Ret _ _ _ _ Hset Hrs)).
  by rewrite (bind_Ret _ _ _ _ _ (session_action_unauthenticated _ _)).
Qed.
End Unauthenticated.

(** C9. On a connection without a session id, [_session_action] writes the
    warning to stderr and returns None without raising, and so do [logout]
    and [list_all_domains]; [info_dns_records] and [update_dns_records]
    write the same warning and then raise a TypeError, because they
    subscript the None they got back. *)
Theorem unauthenticated_session_use (post : string -> pyval -> outcome (Z * pyval))
    (w : world) (self : loc) (c : NetcupConnection) :
  objects w !! self = Some (ObjConnection c) ->
  _session_id c = PNone ->
  (forall action_name params,
     NetcupConnection._session_action post self action_name params w
     = (Ret None, warned w)) /\
  NetcupConnection.logout post self w = (Ret None, warned w) /\
  NetcupConnection.list_all_domains post self w = (Ret None, warned w) /\
  (forall domainname,
     NetcupConnection.info_dns_records post self domainname w
     = (Raise TypeError, warned w)) /\
  (forall dns_records s rs,
     objects w !! dns_records = Some (ObjRecordSet s) ->
     points_to w (_records s) rs ->
     NetcupConnection.update_dns_records post self dns_records w
     = (Raise TypeError, warned w)).
Proof.
  intros Hself Hsession. split_and!.
  - intros. by apply session_action_unauthenticated with (c := c).
  - by apply session_action_unauthenticated with (c := c).
  - by apply session_action_unauthenticated with (c := c).
  - intros. by apply info_dns_records_unauthenticated with (c := c).
  - intros. by eapply update_dns_records_unauthenticated.
Qed.

Lemma unauthenticated_session_use_witness :
  NetcupConnection.info_dns_records (fun _ _ => Raise ValueError) 5%positive
    "example.com" offline_store
  = (Raise TypeError, warned offline_store).
Proof.
  apply (proj1 (proj2 (proj2 (proj2
           (unauthenticated_session_use (fun _ _ => Raise ValueError)
              offline_store 5%positive new_connection eq_refl eq_refl))))).
Defined.

(** ** Updating the records of a domain *)

Section Authenticated.
Variable post : string -> pyval -> outcome (Z * pyval).
Variables (w : world) (self : loc) (c : NetcupConnection).
Hypothesis Hself : objects w !! self = Some (ObjConnection c).
Hypothesis Hsession : _session_id c <> PNone.

Lemma session_action_authenticated action_name params st body :
  post (_uri c)
       (PDict [("action", PStr action_name);
               ("param", PDict (session_params c (default [] params)))])
  = Ret (st, body) ->
  NetcupConnection._session_action post self action_name params w
  = (Ret (Some (NetcupConnection.Response st body)), w).
Proof.
  intros Hpost. unfold NetcupConnection._session_action.
  rewrite (bind_Ret _ _ _ _ _ (read_connection_Ret _ _ _ Hself)).
  assert (Hact : NetcupConnection._action post self action_name
                   (session_params c (default [] params)) w
                 = (Ret (NetcupConnection.Response st body), w)).
  { unfold NetcupConnection._action.
    rewrite (bind_Ret _ _ _ _ _ (read_connection_Ret _ _ _ Hself)).
    unfold lift, bind. by rewrite Hpost. }
  unfold session_params in Hact.
  destruct (_session_id c) eqn:Hsid; try done;
    by rewrite (bind_Ret _ _ _ _ _ Hact).
Qed.

Variables (dns_records : loc) (s : DNSRecordSet) (rs : list DNSRecord).
Hypothesis Hset : objects w !! dns_records = Some (ObjRecordSet s).
Hypothesis Hrs : points_to w (_records s) rs.
Variables (st : Z) (body : pyval).
Hypothesis Hpost : forall uri payload, post uri payload = Ret (st, body).

(** Which answers [update_dns_records] accepts and which it refuses. *)
Lemma update_dns_records_paths :
  (st = 200 ->
     NetcupConnection.update_dns_records post self dns_records w
     = accept dns_records body w) /\
  (forall v, st <> 200 -> Py.subscript body "status" = Ret v ->
     v <> PStr "ok" ->
     NetcupConnection.update_dns_records post self dns_records w
     = accept dns_records body w) /\
  (st <> 200 -> Py.subscript body "status" = Ret (PStr "ok") ->
     NetcupConnection.update_dns_records post self dns_records w
     = (Raise (ServerResponseError "Unable to update DNS records:" []
                 (Some (st, body))), w)).
Proof.
  assert (Hdn : DNSRecordSet.get_domainname dns_records w = (Ret (domainname s), w)).
  { unfold DNSRecordSet.get_domainname.
    by rewrite (bind_Ret _ _ _ _ _ (read_set_Ret _ _ _ Hset)). }
  assert (Hhead : NetcupConnection.update_dns_records post self dns_records w
    = (proceed <- (if Z.eqb st 200 then ret true
                   else st' <- lift (Py.subscript body "status") ;;
                        ret (NetcupConnection.differs_from_str st' "ok")) ;;
       if (proceed : bool) then accept dns_records body
       else raise (ServerResponseError "Unable to update DNS records:" []
                     (Some (st, body)))) w).
  { unfold NetcupConnection.update_dns_records.
    rewrite (bind_Ret _ _ _ _ _ Hdn).
    rewrite (bind_Ret _ _ _ _ _ (set_serialize_Ret _ _ _ _ Hset Hrs)).
    by rewrite (bind_Ret _ _ _ _ _
                  (session_action_authenticated _ _ _ _ (Hpost _ _))). }
  rewrite Hhead. split_and!.
  - intros ->. reflexivity.
  - intros v Hst Hv Hne. apply Z.eqb_neq in Hst. rewrite Hst.
    unfold bind at 1. unfold bind at 1. unfold lift. rewrite Hv. simpl.
    destruct v as [| | |s'| |]; try done. simpl.
    destruct (String.eqb_spec s' "ok") as [->|]; [done | reflexivity].
  - intros Hst Hv. apply Z.eqb_neq in Hst. rewrite Hst.
    unfold bind at 1. unfold bind at 1. unfold lift. rewrite Hv. reflexivity.
Qed.
End Authenticated.

(** C2. With a session, an answer with HTTP status 200 whose application
    status is "error" is taken as a success: [update_dns_records] returns the
    record set deserialized from the answer, or fails inside
    [DNSRecordSet.deserialize] when the answer carries no record list; no
    ServerResponseError is raised.  The same happens for HTTP status 500 with
    application status "error".  A ServerResponseError is raised for HTTP
    status 500 with application status "ok". *)
Theorem update_dns_records_accepts_failure :
  (let run := NetcupConnection.update_dns_records
                (answering 200 (refusal (PDict [("dnsrecords", PList [])])))
                5%positive 1%positive session_store in
   fst run = Ret 6%positive /\
   objects (snd run) !! 6%positive
   = Some (ObjRecordSet (mk_set "example.com" []))) /\
  fst (NetcupConnection.update_dns_records
         (answering 200 (refusal (PStr ""))) 5%positive 1%positive session_store)
  = Raise AssertionError /\
  (let run := NetcupConnection.update_dns_records
                (answering 500 (refusal (PDict [("dnsrecords", PList [])])))
                5%positive 1%positive session_store in
   fst run = Ret 6%positive /\
   objects (snd run) !! 6%positive
   = Some (ObjRecordSet (mk_set "example.com" []))) /\
  NetcupConnection.update_dns_records
    (answering 500 (PDict [("status", PStr "ok")]))
    5%positive 1%positive session_store
  = (Raise (ServerResponseError "Unable to update DNS records:" []
              (Some (500, PDict [("status", PStr "ok")]))), session_store).
Proof.
  split_and!; cbv zeta; try split; vm_compute; reflexivity.
Qed.


(** * Further properties *)

(** ** Records: failures of [deserialize] *)

Lemma priority_parses_run (d : dict) :
  priority_parses d ->
  exists p,
    (if Py.dict_contains "priority" d then
       (try v <- Py.dict_item "priority" d;
        try priority <- Py.int v;
        Ret (if Z.eqb priority 0 then None else Some priority))%outcome
     else Ret None) = Ret p.
Proof.
  unfold priority_parses, Py.dict_contains, Py.dict_item.
  destruct (Py.dict_get "priority" d) as [v|]; simpl.
  - intros [p ->]. simpl. by eexists.
  - intros _. by eexists.
Qed.

Lemma deserialize_fields (d : dict) :
  priority_parses d -> id_parses d ->
  exists p i,
    deserialize (PDict d)
    = (try record_type <- str_field "type" d;
       try hostname <- str_field "hostname" d;
       try destination <- str_field "destination" d;
       let record := __init__ (Some i) record_type hostname destination p in
       Ret (if Py.truthy (Py.get "delete" d) then delete record else record))%outcome.
Proof.
  intros Hp (v & i & Hid & Hi). unfold deserialize.
  destruct (priority_parses_run d Hp) as [p ->]. simpl.
  unfold Py.dict_item at 1. rewrite Hid. simpl. rewrite Hi. simpl.
  by exists p, i.
Qed.

(** X1. [DNSRecord.deserialize] fails in the order in which it reads the
    payload: anything that is not a mapping is a TypeError; a priority entry
    that does not parse fails first, whatever else is there; then a missing
    id is KeyError "id" and an id that does not parse fails with the error of
    the conversion; then missing type, hostname and destination are the
    KeyError of the first one missing. *)
Theorem deserialize_failures (d : dict) :
  (forall data, (forall d', data <> PDict d') -> deserialize data = Raise TypeError) /\
  (forall v e, Py.dict_get "priority" d = Some v -> Py.int v = Raise e ->
     deserialize (PDict d) = Raise e) /\
  (priority_parses d -> Py.dict_get "id" d = None ->
     deserialize (PDict d) = Raise (KeyError "id")) /\
  (priority_parses d ->
   forall v e, Py.dict_get "id" d = Some v -> Py.int v = Raise e ->
     deserialize (PDict d) = Raise e) /\
  (priority_parses d -> id_parses d ->
     (Py.dict_get "type" d = None ->
        deserialize (PDict d) = Raise (KeyError "type")) /\
     (forall t, Py.dict_get "type" d = Some (PStr t) ->
        Py.dict_get "hostname" d = None ->
        deserialize (PDict d) = Raise (KeyError "hostname")) /\
     (forall t h, Py.dict_get "type" d = Some (PStr t) ->
        Py.dict_get "hostname" d = Some (PStr h) ->
        Py.dict_get "destination" d = None ->
        deserialize (PDict d) = Raise (KeyError "destination"))).
Proof.
  split_and!.
  - intros data Hnot. destruct data; try done. by destruct (Hnot d0).
  - intros v e Hv He. unfold deserialize, Py.dict_contains, Py.dict_item.
    rewrite Hv. simpl. by rewrite He.
  - intros Hp Hid. unfold deserialize.
    destruct (priority_parses_run d Hp) as [p ->]. simpl.
    unfold Py.dict_item. by rewrite Hid.
  - intros Hp v e Hid He. unfold deserialize.
    destruct (priority_parses_run d Hp) as [p ->]. simpl.
    unfold Py.dict_item. rewrite Hid. simpl. by rewrite He.
  - intros Hp Hi.
    destruct (deserialize_fields d Hp Hi) as (p & i & ->).
    unfold str_field, Py.dict_item. split_and!.
    + intros Ht. rewrite Ht. reflexivity.
    + intros t Ht Hh. rewrite Ht, Hh. reflexivity.
    + intros t h Ht Hh Hd. rewrite Ht, Hh, Hd. reflexivity.
Qed.

Lemma deserialize_failures_witness :
  deserialize (PDict [("type", PStr "A"); ("priority", PStr "10")])
  = Raise (KeyError "id") /\
  deserialize (PDict [("priority", PStr "ten"); ("hostname", PStr "www")])
  = Raise ValueError /\
  deserialize (PDict [("id", PNone); ("type", PStr "A")]) = Raise TypeError.
Proof.
  split_and!.
  - apply (proj1 (proj2 (proj2 (deserialize_failures _)))).
    + exists 10. reflexivity.
    + reflexivity.
  - apply (proj1 (proj2 (deserialize_failures _)) (PStr "ten")); reflexivity.
  - apply (proj1 (proj2 (proj2 (proj2
             (deserialize_failures [("id", PNone); ("type", PStr "A")]))))
             I PNone);
      reflexivity.
Defined.

(** ** Records: what comes back from the wire format *)

(** X2. For a record with an id, [deserialize] of its serialized payload
    returns the record with the same id, type, hostname and destination, with
    a priority of 0 turned into None, and never marked deleted: the payload
    says [deleterecord], [deserialize] reads [delete].  For a record without
    id that is not marked deleted the payload exists and [deserialize] of it
    raises a TypeError. *)
Theorem serialize_then_deserialize (r : DNSRecord) :
  (forall i, record_id r = Some i ->
     exists d,
       serialize r = Some d /\
       deserialize (PDict d)
       = Ret (mk (Some i) (record_type r) (hostname r) (destination r)
                 (wire_priority (priority r)) false)) /\
  (record_id r = None -> deleted r = false ->
     exists d, serialize r = Some d /\ deserialize (PDict d) = Raise TypeError).
Proof.
  destruct r as [rid t h dst p del]; simpl. split.
  - intros i ->. unfold serialize; simpl. rewrite andb_false_r.
    eexists. split; [reflexivity|].
    destruct p as [p|]; unfold deserialize; simpl; [|reflexivity].
    unfold parsed_priority. by destruct (Z.eqb p 0).
  - intros -> ->. unfold serialize; simpl. eexists. split; [reflexivity|].
    by destruct p.
Qed.

Lemma serialize_then_deserialize_witness :
  exists d,
    serialize (mk (Some 12) "MX" "@" "mail.example.com" (Some 0) true) = Some d /\
    deserialize (PDict d)
    = Ret (mk (Some 12) "MX" "@" "mail.example.com" None false).
Proof.
  apply (proj1 (serialize_then_deserialize
                  (mk (Some 12) "MX" "@" "mail.example.com" (Some 0) true)) 12).
  reflexivity.
Defined.

(** ** Records: created, deleted, serialized *)

(** X3. A record made by [new] is always serialized, with id None and
    deleterecord False, and with priority 10 when it is an MX record made
    without priority; once [delete] has been applied to it, it is omitted.
    A record with an id is still serialized after [delete], with
    deleterecord True. *)
Theorem new_delete_serialize (t h dst : string) (p : option Z) :
  (exists d, serialize (new t h dst p) = Some d /\
             Py.dict_get "id" d = Some PNone /\
             Py.dict_get "deleterecord" d = Some (PBool false) /\
             (Py.upper t = "MX" -> p = None ->
                Py.dict_get "priority" d = Some (PInt 10))) /\
  serialize (delete (new t h dst p)) = None /\
  (forall r i, record_id r = Some i ->
     exists d, serialize (delete r) = Some d /\
               Py.dict_get "id" d = Some (PInt i) /\
               Py.dict_get "deleterecord" d = Some (PBool true)).
Proof.
  split_and!.
  - destruct (serialize (new t h dst p)) as [d|] eqn:Hd.
    + exists d. split; [done|].
      destruct (serialize_Some_fields _ _ Hd) as (Hid & _ & _ & _ & Hdel & _ & Hp & _).
      split; [done|]. split; [done|]. intros Hmx ->. rewrite Hp.
      unfold new. by rewrite Hmx.
    + apply serialize_None_iff in Hd. by destruct Hd.
  - by apply serialize_None_iff.
  - intros r i Hi. destruct (serialize (delete r)) as [d|] eqn:Hd.
    + exists d. split; [done|].
      destruct (serialize_Some_fields _ _ Hd) as (Hid & _ & _ & _ & Hdel & _).
      simpl in Hid. rewrite Hi in Hid. done.
    + apply serialize_None_iff in Hd. destruct Hd as [_ Hid]. simpl in Hid.
      congruence.
Qed.

Lemma new_delete_serialize_witness :
  exists d, serialize (new "mx" "@" "mail.example.com" None) = Some d /\
            Py.dict_get "priority" d = Some (PInt 10).
Proof.
  destruct (proj1 (new_delete_serialize "mx" "@" "mail.example.com" None))
    as (d & Hd & _ & _ & Hp).
  exists d. split; [exact Hd|]. apply Hp; reflexivity.
Defined.

(** ** Records: equality *)

(** X4. Equality of records is reflexive, symmetric and transitive, [__neq__]
    is its negation, and [delete] keeps a record equal to what it was, with
    the same hash. *)
Theorem equality_is_equivalence
    (hash : string * string * string * option Z -> Z) (a b c : DNSRecord) :
  __eq__ a (Instance_ a) = true /\
  __eq__ a (Instance_ b) = __eq__ b (Instance_ a) /\
  (__eq__ a (Instance_ b) = true -> __eq__ b (Instance_ c) = true ->
     __eq__ a (Instance_ c) = true) /\
  __neq__ a (Instance_ b) = negb (__eq__ a (Instance_ b)) /\
  __eq__ (delete a) (Instance_ a) = true /\
  __hash__ hash (delete a) = __hash__ hash a.
Proof.
  split_and!.
  - by apply eq_iff_cmpkey.
  - destruct (__eq__ a (Instance_ b)) eqn:Hab; symmetry.
    + apply eq_iff_cmpkey. by apply eq_iff_cmpkey in Hab.
    + apply not_true_is_false. intros Hba. apply eq_iff_cmpkey in Hba.
      apply not_true_iff_false in Hab. apply Hab. by apply eq_iff_cmpkey.
  - intros Hab Hbc. apply eq_iff_cmpkey in Hab, Hbc. apply eq_iff_cmpkey.
    congruence.
  - reflexivity.
  - by apply eq_iff_cmpkey.
  - reflexivity.
Qed.

Lemma equality_is_equivalence_witness :
  __eq__ (mk (Some 1) "A" "www" "192.0.2.1" None false)
         (Instance_ (mk None "A" "www" "192.0.2.1" None true)) = true.
Proof.
  apply (proj1 (proj2 (proj2 (equality_is_equivalence (fun _ => 0)
           (mk (Some 1) "A" "www" "192.0.2.1" None false)
           (mk (Some 2) "A" "www" "192.0.2.1" None false)
           (mk None "A" "www" "192.0.2.1" None true)))));
    reflexivity.
Defined.

(** ** Record sets: deleting everything *)

Lemma world_eta (w : world) : World (objects w) (stderr w) = w.
Proof. by destruct w. Qed.

Lemma world_eq (w1 w2 : world) :
  (forall l, objects w1 !! l = objects w2 !! l) -> stderr w1 = stderr w2 -> w1 = w2.
Proof.
  destruct w1 as [m1 e1], w2 as [m2 e2]; simpl. intros Hm ->.
  f_equal. by apply map_eq.
Qed.

Lemma delete_deleted (r : DNSRecord) : deleted r = true -> delete r = r.
Proof. destruct r; simpl. by intros ->. Qed.

Lemma delete_all_loop ls : forall w,
  (forall l, l ∈ ls -> exists r, objects w !! l = Some (ObjRecord r)) ->
  exists w',
    for_each ls (fun record => update_record record delete) w = (Ret tt, w') /\
    stderr w' = stderr w /\
    forall l, objects w' !! l = deleted_in ls l (objects w !! l).
Proof.
  induction ls as [|a ls IH]; intros w Hrec; simpl.
  - exists w. split_and!; try done. intros l. unfold deleted_in.
    by destruct (objects w !! l) as [[r| |]|].
  - destruct (Hrec a) as [ra Ha]; [by left|].
    rewrite (bind_Ret _ _ _ _ _ (update_record_Ret _ _ delete _ Ha)).
    set (w1 := World (<[a := ObjRecord (delete ra)]> (objects w)) (stderr w)).
    destruct (IH w1) as (w' & Hloop & Herr & Hobj).
    { intros l Hl. subst w1; simpl.
      destruct (decide (l = a)) as [->|Hne].
      - rewrite lookup_insert_eq. by eexists.
      - rewrite lookup_insert_ne by done. apply Hrec. by right. }
    exists w'. split; [done|]. split; [done|].
    intros l. rewrite Hobj. subst w1; simpl.
    destruct (decide (l = a)) as [->|Hne].
    + rewrite lookup_insert_eq, Ha. unfold deleted_in.
      rewrite (decide_True (P := a ∈ a :: ls)) by (by left).
      by destruct (decide _).
    + rewrite lookup_insert_ne by done. unfold deleted_in.
      destruct (objects w !! l) as [[r| |]|]; try done.
      apply decide_ext. rewrite elem_of_cons. tauto.
Qed.

Lemma points_to_elem w ls rs l :
  points_to w ls rs -> l ∈ ls -> exists r, objects w !! l = Some (ObjRecord r).
Proof.
  induction 1 as [|l0 r0 ls rs Hl _ IH]; intros Hin.
  - by apply not_elem_of_nil in Hin.
  - apply elem_of_cons in Hin as [->|Hin]; [by eexists | by apply IH].
Qed.

Lemma points_to_impl w w' ls rs (f : DNSRecord -> DNSRecord) :
  points_to w ls rs ->
  (forall l r, l ∈ ls -> objects w !! l = Some (ObjRecord r) ->
               objects w' !! l = Some (ObjRecord (f r))) ->
  points_to w' ls (map f rs).
Proof.
  induction 1 as [|l0 r0 ls rs Hl _ IH]; intros Himpl; simpl.
  - constructor.
  - constructor.
    + apply Himpl; [by left | done].
    + apply IH. intros l r Hin. apply Himpl. by right.
Qed.

Lemma delete_all_Ret w self s :
  objects w !! self = Some (ObjRecordSet s) ->
  (forall l, l ∈ _records s -> exists r, objects w !! l = Some (ObjRecord r)) ->
  exists w',
    DNSRecordSet.delete_all self w = (Ret tt, w') /\
    stderr w' = stderr w /\
    forall l, objects w' !! l = deleted_in (_records s) l (objects w !! l).
Proof.
  intros Hself Hrec.
  destruct (delete_all_loop (_records s) w Hrec) as (w' & Hloop & Herr & Hobj).
  exists w'. split; [|done]. unfold DNSRecordSet.delete_all.
  by rewrite (bind_Ret _ _ _ _ _ (read_set_Ret _ _ _ Hself)).
Qed.

(** X5. [delete_all] returns after setting the delete flag of every record
    of the set and of nothing else; the set keeps its sequence, so its length
    still counts the deleted records. *)
Theorem delete_all_marks_all (w : world) (self : loc) (s : DNSRecordSet) :
  objects w !! self = Some (ObjRecordSet s) ->
  (forall l, l ∈ _records s -> exists r, objects w !! l = Some (ObjRecord r)) ->
  exists w',
    DNSRecordSet.delete_all self w = (Ret tt, w') /\
    (forall l r, l ∈ _records s -> objects w !! l = Some (ObjRecord r) ->
       objects w' !! l
       = Some (ObjRecord (mk (record_id r) (record_type r) (hostname r)
                             (destination r) (priority r) true))) /\
    (forall l, l ∉ _records s -> objects w' !! l = objects w !! l) /\
    DNSRecordSet.__len__ self w' = (Ret (length (_records s)), w').
Proof.
  intros Hself Hrec.
  destruct (delete_all_Ret w self s Hself Hrec) as (w' & Hrun & _ & Hobj).
  assert (Hout : forall l, l ∉ _records s -> objects w' !! l = objects w !! l).
  { intros l Hl. rewrite Hobj. unfold deleted_in.
    destruct (objects w !! l) as [[r| |]|]; try done. by rewrite decide_False. }
  exists w'. split_and!; try done.
  - intros l r Hl Hr. rewrite Hobj, Hr. unfold deleted_in. by rewrite decide_True.
  - assert (Hself' : objects w' !! self = Some (ObjRecordSet s)).
    { rewrite Hout; [done|]. intros Hin. destruct (Hrec self Hin) as [r Hr].
      congruence. }
    unfold DNSRecordSet.__len__.
    by rewrite (bind_Ret _ _ _ _ _ (read_set_Ret _ _ _ Hself')).
Qed.

Lemma delete_all_marks_all_witness :
  exists w',
    DNSRecordSet.delete_all 1%positive example_store = (Ret tt, w') /\
    objects w' !! 2%positive
    = Some (ObjRecord (mk (Some 11) "A" "www" "192.0.2.1" None true)) /\
    DNSRecordSet.__len__ 1%positive w' = (Ret 3%nat, w').
Proof.
  destruct (delete_all_marks_all example_store 1%positive
              (mk_set "example.com" [2; 3; 4]%positive))
    as (w' & Hrun & Hin & _ & Hlen).
  - reflexivity.
  - intros l Hl. simpl in Hl. rewrite !elem_of_cons in Hl.
    destruct Hl as [->|[->|[->|Hl]]]; [by eexists..|by apply not_elem_of_nil in Hl].
  - exists w'. split; [exact Hrun|]. split; [|exact Hlen].
    apply (Hin 2%positive (mk (Some 11) "A" "www" "192.0.2.1" None false));
      [|reflexivity].
    simpl. rewrite !elem_of_cons. tauto.
Defined.

Lemma deleted_payloads (rs : list DNSRecord) :
  Forall2 delete_instruction
          (filter (fun r => is_Some (record_id r)) rs)
          (omap (fun record => record) (map serialize (map delete rs))).
Proof.
  induction rs as [|r rs IH]; simpl; [constructor|].
  rewrite filter_cons. destruct (record_id r) as [i|] eqn:Hi.
  - rewrite decide_True by (by eexists).
    destruct (serialize (delete r)) as [p|] eqn:Hp; simpl.
    + constructor; [|exact IH].
      destruct (serialize_Some_fields _ _ Hp) as (Hid & Ht & Hh & Hd & Hdel & _).
      simpl in *. rewrite Hi in Hid. by exists i.
    + apply serialize_None_iff in Hp. destruct Hp as [_ Hid]. simpl in Hid.
      congruence.
  - rewrite decide_False by (by intros [? ?]).
    assert (Hp : serialize (delete r) = None) by (by apply serialize_None_iff).
    rewrite Hp. exact IH.
Qed.

(** X6. After [delete_all], [serialize] returns one entry for each record
    of the set that has an id, in the order of the set, each naming the
    record and carrying deleterecord True; the records without id give no
    entry. *)
Theorem delete_all_then_serialize (w : world) (self : loc) (s : DNSRecordSet)
    (rs : list DNSRecord) :
  objects w !! self = Some (ObjRecordSet s) ->
  points_to w (_records s) rs ->
  exists w' payloads,
    DNSRecordSet.delete_all self w = (Ret tt, w') /\
    DNSRecordSet.serialize self w'
    = (Ret (PDict [("dnsrecords", PList (map PDict payloads))]), w') /\
    Forall2 delete_instruction (filter (fun r => is_Some (record_id r)) rs)
            payloads.
Proof.
  intros Hself Hrs.
  destruct (delete_all_Ret w self s Hself (fun l => points_to_elem _ _ _ l Hrs))
    as (w' & Hrun & _ & Hobj).
  assert (Hself' : objects w' !! self = Some (ObjRecordSet s))
    by (by rewrite Hobj, Hself).
  assert (Hrs' : points_to w' (_records s) (map delete rs)).
  { apply (points_to_impl w w' _ _ delete Hrs). intros l r Hl Hr.
    rewrite Hobj, Hr. unfold deleted_in. by rewrite decide_True. }
  exists w', (omap (fun record => record) (map serialize (map delete rs))).
  split; [done|]. split; [by apply set_serialize_Ret with (s := s)|].
  apply deleted_payloads.
Qed.

Lemma delete_all_then_serialize_witness :
  exists w' payloads,
    DNSRecordSet.delete_all 1%positive example_store = (Ret tt, w') /\
    DNSRecordSet.serialize 1%positive w'
    = (Ret (PDict [("dnsrecords", PList (map PDict payloads))]), w') /\
    length payloads = 2%nat.
Proof.
  destruct (delete_all_then_serialize example_store 1%positive
              (mk_set "example.com" [2; 3; 4]%positive)
              [mk (Some 11) "A" "www" "192.0.2.1" None false;
               mk None "A" "www" "192.0.2.2" None true;
               mk (Some 12) "MX" "@" "mail.example.com" (Some 10) true])
    as (w' & payloads & Hrun & Hser & Hall).
  - reflexivity.
  - repeat constructor.
  - exists w', payloads. split; [exact Hrun|]. split; [exact Hser|].
    symmetry. exact (Forall2_length _ _ _ Hall).
Defined.

(** ** Record sets: adding *)

Lemma add_record_Ret w self s l r :
  objects w !! self = Some (ObjRecordSet s) ->
  objects w !! l = Some (ObjRecord r) ->
  DNSRecordSet.add self (Ref l) w
  = (Ret self,
     World (<[self := ObjRecordSet (mk_set (domainname s) (_records s ++ [l]))]>
              (objects w)) (stderr w)).
Proof.
  intros Hself Hl. unfold DNSRecordSet.add, as_record, bind at 1. rewrite Hl.
  by rewrite (bind_Ret _ _ _ _ _ (read_set_Ret _ _ _ Hself)).
Qed.

(** X7. Calls of [add] chain through the returned set: adding two records,
    which may be one and the same object, leaves the old sequence followed by
    the two references in the order of the calls, makes the length two
    larger, and changes no other object. *)
Theorem add_chains (w : world) (self : loc) (s : DNSRecordSet)
    (l1 l2 : loc) (r1 r2 : DNSRecord) :
  objects w !! self = Some (ObjRecordSet s) ->
  objects w !! l1 = Some (ObjRecord r1) ->
  objects w !! l2 = Some (ObjRecord r2) ->
  exists w',
    (s1 <- DNSRecordSet.add self (Ref l1) ;; DNSRecordSet.add s1 (Ref l2)) w
    = (Ret self, w') /\
    DNSRecordSet.__iter__ self w' = (Ret (_records s ++ [l1; l2])%list, w') /\
    DNSRecordSet.__len__ self w' = (Ret (length (_records s) + 2)%nat, w') /\
    (forall l, l <> self -> objects w' !! l = objects w !! l).
Proof.
  intros Hself H1 H2.
  assert (Hne : l2 <> self) by congruence.
  rewrite (bind_Ret _ _ _ _ _ (add_record_Ret _ _ _ _ _ Hself H1)).
  erewrite add_record_Ret; simpl;
    [ | apply lookup_insert_eq | by rewrite lookup_insert_ne ].
  eexists. split; [reflexivity|].
  assert (Hset : forall m e,
    objects (World (<[self := ObjRecordSet
                         (mk_set (domainname s) ((_records s ++ [l1]) ++ [l2]))]> m) e)
      !! self
    = Some (ObjRecordSet (mk_set (domainname s) (_records s ++ [l1; l2])))).
  { intros m e. simpl. rewrite lookup_insert_eq. by rewrite <- app_assoc. }
  split_and!.
  - unfold DNSRecordSet.__iter__.
    by rewrite (bind_Ret _ _ _ _ _ (read_set_Ret _ _ _ (Hset _ _))).
  - unfold DNSRecordSet.__len__.
    rewrite (bind_Ret _ _ _ _ _ (read_set_Ret _ _ _ (Hset _ _))).
    unfold ret. simpl. by rewrite length_app.
  - intros l Hl. simpl. by rewrite !lookup_insert_ne.
Qed.

Lemma add_chains_witness :
  exists w',
    (s1 <- DNSRecordSet.add 1%positive (Ref 2%positive) ;;
     DNSRecordSet.add s1 (Ref 2%positive)) example_store
    = (Ret 1%positive, w') /\
    DNSRecordSet.__iter__ 1%positive w'
    = (Ret [2; 3; 4; 2; 2]%positive, w').
Proof.
  destruct (add_chains example_store 1%positive
              (mk_set "example.com" [2; 3; 4]%positive) 2%positive 2%positive
              _ _ eq_refl eq_refl eq_refl)
    as (w' & Hrun & Hiter & _).
  exists w'. split; [exact Hrun | exact Hiter].
Defined.

(** ** Record sets: deleting by hostname, again *)

Lemma marked_marked hn ls l o :
  marked hn ls l (marked hn ls l o) = marked hn ls l o.
Proof.
  unfold marked. destruct o as [[r| |]|]; try done.
  destruct (decide (l ∈ ls /\ hostname r = hn)) as [H|H]; simpl.
  - by rewrite decide_True.
  - by rewrite decide_False.
Qed.

(** X8. [delete_hostname] never takes a delete flag away: a record that is
    already marked deleted is left exactly as it is; and calling it a second
    time with the same hostname changes nothing any more. *)
Theorem delete_hostname_again (w : world) (self : loc) (s : DNSRecordSet)
    (hn : string) :
  objects w !! self = Some (ObjRecordSet s) ->
  (forall l, l ∈ _records s -> exists r, objects w !! l = Some (ObjRecord r)) ->
  exists w',
    DNSRecordSet.delete_hostname self hn w = (Ret tt, w') /\
    (forall l r, objects w !! l = Some (ObjRecord r) -> deleted r = true ->
       objects w' !! l = Some (ObjRecord r)) /\
    DNSRecordSet.delete_hostname self hn w' = (Ret tt, w').
Proof.
  intros Hself Hrec.
  destruct (delete_hostname_loop hn (_records s) w Hrec) as (w' & Hloop & Herr & Hobj).
  assert (Hrun : forall w0 w1, objects w0 !! self = Some (ObjRecordSet s) ->
            for_each (_records s) (delete_matching hn) w0 = (Ret tt, w1) ->
            DNSRecordSet.delete_hostname self hn w0 = (Ret tt, w1)).
  { intros w0 w1 H0 H1. unfold DNSRecordSet.delete_hostname.
    by rewrite (bind_Ret _ _ _ _ _ (read_set_Ret _ _ _ H0)). }
  assert (Hself' : objects w' !! self = Some (ObjRecordSet s))
    by (by rewrite Hobj, Hself).
  assert (Hrec' : forall l, l ∈ _records s ->
            exists r, objects w' !! l = Some (ObjRecord r)).
  { intros l Hl. destruct (Hrec l Hl) as [r Hr]. rewrite Hobj, Hr. unfold marked.
    destruct (decide _); by eexists. }
  destruct (delete_hostname_loop hn (_records s) w' Hrec')
    as (w'' & Hloop' & Herr' & Hobj').
  assert (Hsame : w'' = w').
  { apply world_eq; [|done]. intros l.
    by rewrite Hobj', Hobj, marked_marked. }
  subst w''. exists w'. split_and!.
  - by apply Hrun.
  - intros l r Hr Hdel. rewrite Hobj, Hr. unfold marked.
    destruct (decide _); [|done]. by rewrite delete_deleted.
  - by apply Hrun.
Qed.

Lemma delete_hostname_again_witness :
  exists w',
    DNSRecordSet.delete_hostname 1%positive "@" example_store = (Ret tt, w') /\
    objects w' !! 4%positive
    = Some (ObjRecord (mk (Some 12) "MX" "@" "mail.example.com" (Some 10) true)) /\
    DNSRecordSet.delete_hostname 1%positive "@" w' = (Ret tt, w').
Proof.
  destruct (delete_hostname_again example_store 1%positive
              (mk_set "example.com" [2; 3; 4]%positive) "@")
    as (w' & Hrun & Hkeep & Hagain).
  - reflexivity.
  - intros l Hl. simpl in Hl. rewrite !elem_of_cons in Hl.
    destruct Hl as [->|[->|[->|Hl]]]; [by eexists..|by apply not_elem_of_nil in Hl].
  - exists w'. split; [exact Hrun|]. split; [|exact Hagain].
    apply (Hkeep 4%positive
             (mk (Some 12) "MX" "@" "mail.example.com" (Some 10) true));
      reflexivity.
Defined.

(** ** Record sets: built from records *)

Lemma alloc_Ret o w :
  let l := fresh (dom (objects w)) in
  objects w !! l = None /\
  alloc o w = (Ret l, World (<[l := o]> (objects w)) (stderr w)).
Proof. split; [apply not_elem_of_dom, is_fresh | reflexivity]. Qed.

Lemma for_each_app {A} (xs ys : list A) (body : A -> M unit) w :
  for_each (xs ++ ys) body w
  = (for_each xs body ;; for_each ys body) w.
Proof.
  revert w. induction xs as [|x xs IH]; intros w; simpl; [done|].
  unfold bind. destruct (body x w) as [[u|e] w1]; [|done].
  rewrite IH. reflexivity.
Qed.

Lemma add_not_record_Raise w self x :
  (forall l r, x = Ref l -> objects w !! l <> Some (ObjRecord r)) ->
  DNSRecordSet.add self x w = (Raise AssertionError, w).
Proof.
  intros Hnot. unfold DNSRecordSet.add, as_record, bind.
  destruct x as [l|v]; [|done].
  destruct (objects w !! l) as [[r| |]|] eqn:Hl; try done.
  by destruct (Hnot l r).
Qed.

Lemma from_records_loop self dn ls : forall m acc e,
  m !! self = Some (ObjRecordSet (mk_set dn acc)) ->
  (forall l, l ∈ ls -> exists r, m !! l = Some (ObjRecord r)) ->
  for_each (map Ref ls)
           (fun dns_record => DNSRecordSet.add self dns_record ;; ret tt)
           (World m e)
  = (Ret tt, World (<[self := ObjRecordSet (mk_set dn (acc ++ ls))]> m) e).
Proof.
  induction ls as [|a ls IH]; intros m acc e Hself Hrec; simpl.
  - rewrite app_nil_r. by rewrite insert_id.
  - destruct (Hrec a) as [ra Ha]; [by left|].
    assert (Hne : a <> self) by congruence.
    rewrite (bind_Ret _ _ (World m e) tt
               (World (<[self := ObjRecordSet (mk_set dn (acc ++ [a]))]> m) e)).
    + rewrite (IH _ (acc ++ [a])%list).
      * rewrite insert_insert_eq. by rewrite <- app_assoc.
      * apply lookup_insert_eq.
      * intros l Hl. destruct (Hrec l) as [r Hr]; [by right|].
        exists r. rewrite lookup_insert_ne; [done | congruence].
    + by rewrite (bind_Ret _ _ _ _ _
                    (add_record_Ret (World m e) self (mk_set dn acc) a ra Hself Ha)).
Qed.

(** X9. [from_recoTds] on references to records returns a new set object,
    at a reference that was free, holding the domain name and the references
    in the order given; no other object changes.  When one of the arguments
    is not a record, the call fails on the assertion of [add]. *)
Theorem from_records (w : world) (dn : string) (ls : list loc) :
  (forall l, l ∈ ls -> exists r, objects w !! l = Some (ObjRecord r)) ->
  let self := fresh (dom (objects w)) in
  objects w !! self = None /\
  DNSRecordSet.from_recoTds dn (map Ref ls) w
  = (Ret self,
     World (<[self := ObjRecordSet (mk_set dn ls)]> (objects w)) (stderr w)) /\
  (forall x rest,
     (forall l r, x = Ref l -> objects w !! l <> Some (ObjRecord r)) ->
     fst (DNSRecordSet.from_recoTds dn (map Ref ls ++ x :: rest) w)
     = Raise AssertionError).
Proof.
  intros Hrec self.
  destruct (alloc_Ret (ObjRecordSet (mk_set dn [])) w) as [Hfree Halloc].
  fold self in Hfree, Halloc.
  assert (Hloop : for_each (map Ref ls)
             (fun dns_record => DNSRecordSet.add self dns_record ;; ret tt)
             (World (<[self := ObjRecordSet (mk_set dn [])]> (objects w)) (stderr w))
           = (Ret tt, World (<[self := ObjRecordSet (mk_set dn ls)]> (objects w))
                            (stderr w))).
  { rewrite (from_records_loop self dn ls _ []).
    - by rewrite insert_insert_eq.
    - apply lookup_insert_eq.
    - intros l Hl. destruct (Hrec l Hl) as [r Hr]. exists r.
      rewrite lookup_insert_ne; [done | congruence]. }
  split; [done|]. split.
  - unfold DNSRecordSet.from_recoTds, DNSRecordSet.__init__.
    rewrite (bind_Ret _ _ _ _ _ Halloc).
    by rewrite (bind_Ret _ _ _ _ _ Hloop).
  - intros x rest Hnot.
    unfold DNSRecordSet.from_recoTds, DNSRecordSet.__init__.
    rewrite (bind_Ret _ _ _ _ _ Halloc).
    erewrite bind_Raise; [reflexivity|].
    rewrite for_each_app. rewrite (bind_Ret _ _ _ _ _ Hloop). simpl.
    erewrite bind_Raise; [reflexivity|].
    erewrite bind_Raise; [reflexivity|].
    apply add_not_record_Raise. intros l r Hx Hl. simpl in Hl.
    destruct (decide (l = self)) as [->|Hne].
    + by rewrite lookup_insert_eq in Hl.
    + rewrite lookup_insert_ne in Hl by done. by apply (Hnot l r).
Qed.

Lemma from_records_witness :
  fst (DNSRecordSet.from_recoTds "example.org" (map Ref [4; 2]%positive)
         example_store)
  = Ret (fresh (dom (objects example_store))) /\
  fst (DNSRecordSet.from_recoTds "example.org"
         (map Ref [4; 2]%positive ++ [Ref 1%positive]) example_store)
  = Raise AssertionError.
Proof.
  assert (Hrec : forall l, l ∈ [4; 2]%positive ->
            exists r, objects example_store !! l = Some (ObjRecord r)).
  { intros l Hl. rewrite !elem_of_cons in Hl.
    destruct Hl as [->|[->|Hl]]; [by eexists..|by apply not_elem_of_nil in Hl]. }
  split.
  - by rewrite (proj1 (proj2 (from_records example_store "example.org" _ Hrec))).
  - apply (proj2 (proj2 (from_records example_store "example.org" _ Hrec))).
    intros l r [= <-]. discriminate.
Defined.

(** ** Record sets: deserialized from a payload *)

Lemma deserialize_item_Ret self dn acc item r m e :
  DNSRecord.deserialize item = Ret r ->
  m !! self = Some (ObjRecordSet (mk_set dn acc)) ->
  let l := fresh (dom m) in
  m !! l = None /\ l <> self /\
  deserialize_item self item (World m e)
  = (Ret tt,
     World (<[self := ObjRecordSet (mk_set dn (acc ++ [l]))]>
              (<[l := ObjRecord r]> m)) e).
Proof.
  intros Hitem Hself l.
  destruct (alloc_Ret (ObjRecord r) (World m e)) as [Hfree Halloc].
  simpl in Hfree, Halloc. fold l in Hfree, Halloc.
  assert (Hne : l <> self) by congruence.
  split; [done|]. split; [done|].
  unfold deserialize_item, lift, bind at 1. rewrite Hitem.
  rewrite (bind_Ret _ _ _ _ _ Halloc).
  assert (Hadd := add_record_Ret (World (<[l := ObjRecord r]> m) e) self
                    (mk_set dn acc) l r).
  simpl in Hadd. rewrite lookup_insert_ne, lookup_insert_eq in Hadd by done.
  by rewrite (bind_Ret _ _ _ _ _ (Hadd Hself eq_refl)).
Qed.

Lemma deserialize_loop self dn items rs :
  deserialize_all items rs ->
  forall m acc e,
    m !! self = Some (ObjRecordSet (mk_set dn acc)) ->
    exists m' ls,
      for_each items (deserialize_item self) (World m e) = (Ret tt, World m' e) /\
      m' !! self = Some (ObjRecordSet (mk_set dn (acc ++ ls))) /\
      Forall2 (fun l r => m' !! l = Some (ObjRecord r)) ls rs /\
      (forall l, l ∈ ls -> m !! l = None) /\
      NoDup ls /\
      (forall l, l <> self -> is_Some (m !! l) -> m' !! l = m !! l).
Proof.
  induction 1 as [|item r items rs Hitem _ IH]; intros m acc e Hself; simpl.
  - exists m, []. rewrite app_nil_r.
    split_and!; [done | done | constructor | | constructor | done].
    intros l Hl. by apply not_elem_of_nil in Hl.
  - destruct (deserialize_item_Ret self dn acc item r m e Hitem Hself)
      as (Hfree & Hne & Hstep).
    set (l := fresh (dom m)) in *.
    rewrite (bind_Ret _ _ _ _ _ Hstep).
    destruct (IH (<[self := ObjRecordSet (mk_set dn (acc ++ [l]))]>
                    (<[l := ObjRecord r]> m)) (acc ++ [l])%list e)
      as (m' & ls & Hloop & Hself' & Hrs & Hnew & Hnodup & Hframe).
    { apply lookup_insert_eq. }
    assert (Hl2 : forall l', l' ∈ ls -> l' <> l /\ l' <> self /\ m !! l' = None).
    { intros l' Hl'. specialize (Hnew l' Hl').
      destruct (decide (l' = self)) as [->|Hs].
      { by rewrite lookup_insert_eq in Hnew. }
      rewrite lookup_insert_ne in Hnew by done.
      destruct (decide (l' = l)) as [->|Hl].
      { by rewrite lookup_insert_eq in Hnew. }
      by rewrite lookup_insert_ne in Hnew. }
    exists m', (l :: ls). split_and!.
    + done.
    + rewrite Hself'. by rewrite <- app_assoc.
    + constructor; [|done]. rewrite Hframe; [|done|].
      * rewrite lookup_insert_ne by done. apply lookup_insert_eq.
      * rewrite lookup_insert_ne by done. rewrite lookup_insert_eq. by eexists.
    + intros l' Hl'. apply elem_of_cons in Hl' as [->|Hl']; [done|].
      by apply Hl2.
    + constructor; [|done]. intros Hin. by destruct (Hl2 l Hin).
    + intros l' Hs Hsome. rewrite Hframe; [|done|].
      * rewrite lookup_insert_ne by done. rewrite lookup_insert_ne; [done|].
        intros <-. rewrite Hfree in Hsome. by destruct Hsome.
      * rewrite lookup_insert_ne by done. rewrite lookup_insert_ne; [done|].
        intros <-. rewrite Hfree in Hsome. by destruct Hsome.
Qed.

Lemma set_deserialize_run w dn d items rs :
  Py.dict_get "dnsrecords" d = Some (PList items) ->
  deserialize_all items rs ->
  exists self ls w',
    DNSRecordSet.deserialize dn (PDict d) w = (Ret self, w') /\
    objects w !! self = None /\
    objects w' !! self = Some (ObjRecordSet (mk_set dn ls)) /\
    points_to w' ls rs /\
    NoDup ls /\
    (forall l, l ∈ ls -> objects w !! l = None) /\
    (forall l, is_Some (objects w !! l) -> objects w' !! l = objects w !! l) /\
    stderr w' = stderr w.
Proof.
  intros Hd Hitems.
  destruct (alloc_Ret (ObjRecordSet (mk_set dn [])) w) as [Hfree Halloc].
  set (self := fresh (dom (objects w))) in *.
  destruct (deserialize_loop self dn items rs Hitems
              (<[self := ObjRecordSet (mk_set dn [])]> (objects w)) [] (stderr w))
    as (m' & ls & Hloop & Hself' & Hrs & Hnew & Hnodup & Hframe).
  { apply lookup_insert_eq. }
  exists self, ls, (World m' (stderr w)). split_and!; try done.
  - unfold DNSRecordSet.deserialize, DNSRecordSet.__init__.
    rewrite (bind_Ret _ _ _ _ _ Halloc).
    unfold lift at 1, Py.dict_item, bind at 1. rewrite Hd. simpl.
    by rewrite (bind_Ret _ _ _ _ _ Hloop).
  - intros l Hl. specialize (Hnew l Hl).
    destruct (decide (l = self)) as [->|Hs]; [done|].
    by rewrite lookup_insert_ne in Hnew.
  - intros l Hsome. simpl.
    assert (Hs : l <> self).
    { intros ->. rewrite Hfree in Hsome. by destruct Hsome. }
    rewrite Hframe; [by rewrite lookup_insert_ne | done |].
    by rewrite lookup_insert_ne.
Qed.

(** X10. When the payload is a mapping whose ["dnsrecords"] entry is a list
    of items that all deserialize, [DNSRecordSet.deserialize] returns a new
    set object holding the domain name and references to new record objects,
    one per item and in the order of the list, that hold the deserialized
    records; the new references are pairwise different and were free, and
    every object that existed before is unchanged. *)
Theorem set_deserialize_builds (w : world) (dn : string) (d : dict)
    (items : list pyval) (rs : list DNSRecord) :
  Py.dict_get "dnsrecords" d = Some (PList items) ->
  deserialize_all items rs ->
  exists self ls w',
    DNSRecordSet.deserialize dn (PDict d) w = (Ret self, w') /\
    objects w !! self = None /\
    objects w' !! self = Some (ObjRecordSet (mk_set dn ls)) /\
    points_to w' ls rs /\
    NoDup ls /\
    (forall l, l ∈ ls -> objects w !! l = None) /\
    (forall l, is_Some (objects w !! l) -> objects w' !! l = objects w !! l) /\
    DNSRecordSet.__len__ self w' = (Ret (length items), w').
Proof.
  intros Hd Hitems.
  destruct (set_deserialize_run w dn d items rs Hd Hitems)
    as (self & ls & w' & Hrun & Hfree & Hself & Hrs & Hnodup & Hnew & Hframe & _).
  exists self, ls, w'. split_and!; try done.
  unfold DNSRecordSet.__len__.
  rewrite (bind_Ret _ _ _ _ _ (read_set_Ret _ _ _ Hself)). unfold ret; simpl.
  rewrite (Forall2_length _ _ _ Hitems). by rewrite (Forall2_length _ _ _ Hrs).
Qed.

Lemma set_deserialize_builds_witness :
  exists self ls w',
    DNSRecordSet.deserialize "example.com" (PDict fetched_payload) example_store
    = (Ret self, w') /\
    objects w' !! self = Some (ObjRecordSet (mk_set "example.com" ls)) /\
    points_to w' ls [mk (Some 5) "MX" "@" "mail.example.com" None false].
Proof.
  destruct (set_deserialize_builds example_store "example.com" fetched_payload
              [fetched_item]
              [mk (Some 5) "MX" "@" "mail.example.com" None false]
              eq_refl)
    as (self & ls & w' & Hrun & _ & Hself & Hrs & _).
  - constructor; [vm_compute; reflexivity | constructor].
  - exists self, ls, w'. split; [exact Hrun|]. split; [exact Hself | exact Hrs].
Defined.

Lemma bind_ret_snd {A B} (m : M A) (b : B) w :
  snd ((m ;; ret b) w) = snd (m w).
Proof. unfold bind. by destruct (m w) as [[a|e] w']. Qed.

Lemma deserialize_item_Raise self item e w :
  DNSRecord.deserialize item = Raise e ->
  deserialize_item self item w = (Raise e, w).
Proof. intros H. unfold deserialize_item, lift, bind. by rewrite H. Qed.

Lemma deserialize_loop_frame self dn items : forall m acc e,
  m !! self = Some (ObjRecordSet (mk_set dn acc)) ->
  forall l, l <> self -> is_Some (m !! l) ->
    objects (snd (for_each items (deserialize_item self) (World m e))) !! l
    = m !! l.
Proof.
  induction items as [|item items IH]; intros m acc e Hself l Hl Hsome; simpl.
  - done.
  - destruct (DNSRecord.deserialize item) as [r|ex] eqn:Hitem.
    + destruct (deserialize_item_Ret self dn acc item r m e Hitem Hself)
        as (Hfree & Hne & Hstep).
      rewrite (bind_Ret _ _ _ _ _ Hstep).
      assert (Hl' : l <> fresh (dom m)).
      { intros ->. rewrite Hfree in Hsome. by destruct Hsome. }
      rewrite (IH _ (acc ++ [fresh (dom m)])%list).
      * by rewrite !lookup_insert_ne.
      * apply lookup_insert_eq.
      * done.
      * by rewrite !lookup_insert_ne.
    + by rewrite (bind_Raise _ _ _ _ _ (deserialize_item_Raise self item ex _ Hitem)).
Qed.

(** X11. [DNSRecordSet.deserialize] fails with an AssertionError, leaving
    the state as it was, when the payload is not a mapping; with KeyError
    "dnsrecords" when that entry is missing; with a TypeError when the entry
    is None, a bool or an int; and with the error of the first item that does
    not deserialize.  Whether it fails or not, it leaves every object that
    existed before the call as it was. *)
Theorem set_deserialize_failures (w : world) (dn : string) :
  (forall data, (forall d, data <> PDict d) ->
     DNSRecordSet.deserialize dn data w = (Raise AssertionError, w)) /\
  (forall d, Py.dict_get "dnsrecords" d = None ->
     fst (DNSRecordSet.deserialize dn (PDict d) w)
     = Raise (KeyError "dnsrecords")) /\
  (forall d v, Py.dict_get "dnsrecords" d = Some v ->
     v = PNone \/ (exists b, v = PBool b) \/ (exists z, v = PInt z) ->
     fst (DNSRecordSet.deserialize dn (PDict d) w) = Raise TypeError) /\
  (forall d good rs bad rest e,
     Py.dict_get "dnsrecords" d = Some (PList (good ++ bad :: rest)) ->
     deserialize_all good rs ->
     DNSRecord.deserialize bad = Raise e ->
     fst (DNSRecordSet.deserialize dn (PDict d) w) = Raise e) /\
  (forall data l, is_Some (objects w !! l) ->
     objects (snd (DNSRecordSet.deserialize dn data w)) !! l = objects w !! l).
Proof.
  destruct (alloc_Ret (ObjRecordSet (mk_set dn [])) w) as [Hfree Halloc].
  set (self := fresh (dom (objects w))) in *.
  split_and!.
  - intros data Hnot. destruct data; try done. by destruct (Hnot d).
  - intros d Hd. unfold DNSRecordSet.deserialize, DNSRecordSet.__init__.
    rewrite (bind_Ret _ _ _ _ _ Halloc).
    unfold lift, Py.dict_item, bind. by rewrite Hd.
  - intros d v Hd Hv. unfold DNSRecordSet.deserialize, DNSRecordSet.__init__.
    rewrite (bind_Ret _ _ _ _ _ Halloc).
    unfold lift, Py.dict_item, bind. rewrite Hd.
    by destruct Hv as [->|[[b ->]|[z ->]]].
  - intros d good rs bad rest e Hd Hgood Hbad.
    unfold DNSRecordSet.deserialize, DNSRecordSet.__init__.
    rewrite (bind_Ret _ _ _ _ _ Halloc).
    unfold lift at 1, Py.dict_item, bind at 1. rewrite Hd. simpl.
    destruct (deserialize_loop self dn good rs Hgood
                (<[self := ObjRecordSet (mk_set dn [])]> (objects w)) [] (stderr w))
      as (m' & ls & Hloop & _).
    { apply lookup_insert_eq. }
    erewrite bind_Raise; [reflexivity|].
    rewrite for_each_app. rewrite (bind_Ret _ _ _ _ _ Hloop). simpl.
    erewrite bind_Raise; [reflexivity|].
    by apply deserialize_item_Raise.
  - intros data l Hsome. destruct data as [| | | | |d]; try done.
    assert (Hl : l <> self).
    { intros ->. rewrite Hfree in Hsome. by destruct Hsome. }
    unfold DNSRecordSet.deserialize, DNSRecordSet.__init__.
    rewrite (bind_Ret _ _ _ _ _ Halloc).
    unfold lift at 1, bind at 1.
    destruct (obind (Py.dict_item "dnsrecords" d) iterate) as [items|e]; simpl.
    + assert (Hframe := deserialize_loop_frame self dn items
                 (<[self := ObjRecordSet (mk_set dn [])]> (objects w)) []
                 (stderr w) (lookup_insert_eq _ _ _) l Hl).
      rewrite lookup_insert_ne in Hframe by done. specialize (Hframe Hsome).
      rewrite <- Hframe. f_equal. f_equal.
      apply (bind_ret_snd (for_each items (deserialize_item self))).
    + by rewrite lookup_insert_ne.
Qed.

Lemma set_deserialize_failures_witness :
  fst (DNSRecordSet.deserialize "example.com"
         (PDict [("dnsrecords", PList [fetched_item; PStr "id"])]) example_store)
  = Raise TypeError /\
  DNSRecordSet.deserialize "example.com" (PStr "") example_store
  = (Raise AssertionError, example_store).
Proof.
  split.
  - apply (proj1 (proj2 (proj2 (proj2
             (set_deserialize_failures example_store "example.com"))))
             [("dnsrecords", PList [fetched_item; PStr "id"])]
             [fetched_item]
             [mk (Some 5) "MX" "@" "mail.example.com" None false]
             (PStr "id") [] TypeError eq_refl).
    + constructor; [vm_compute; reflexivity | constructor].
    + reflexivity.
  - apply (proj1 (set_deserialize_failures example_store "example.com")).
    intros d Hd. discriminate Hd.
Defined.

(** ** Record sets: fetched, deleted, serialized *)

Lemma deserialized_has_id item r :
  DNSRecord.deserialize item = Ret r -> is_Some (record_id r).
Proof.
  destruct item as [| | | | |d]; try done. intros H.
  apply deserialize_Ret in H.
  destruct H as (_ & i & _ & _ & _ & _ & _ & _ & Hid & _). by exists i.
Qed.

Lemma filter_all {A} (P : A -> Prop) `{forall x, Decision (P x)} (xs : list A) :
  Forall P xs -> filter P xs = xs.
Proof.
  induction 1 as [|x xs Hx _ IH]; [done|].
  rewrite filter_cons, decide_True by done. by rewrite IH.
Qed.

(** X12. A record set deserialized from a payload whose items all
    deserialize, then marked with [delete_all], serializes to exactly one
    delete instruction per item of the payload, in the order of the payload:
    records that come from the wire always have an id, so none is omitted. *)
Theorem fetched_then_deleted (w : world) (dn : string) (d : dict)
    (items : list pyval) (rs : list DNSRecord) :
  Py.dict_get "dnsrecords" d = Some (PList items) ->
  deserialize_all items rs ->
  exists w' payloads,
    (record_set <- DNSRecordSet.deserialize dn (PDict d) ;;
     DNSRecordSet.delete_all record_set ;;
     DNSRecordSet.serialize record_set) w
    = (Ret (PDict [("dnsrecords", PList (map PDict payloads))]), w') /\
    Forall2 delete_instruction rs payloads /\
    length payloads = length items.
Proof.
  intros Hd Hitems.
  destruct (set_deserialize_run w dn d items rs Hd Hitems)
    as (self & ls & w1 & Hrun & _ & Hself & Hrs & _).
  destruct (delete_all_Ret w1 self (mk_set dn ls) Hself
              (fun l => points_to_elem _ _ _ l Hrs))
    as (w2 & Hdel & _ & Hobj).
  assert (Hself2 : objects w2 !! self = Some (ObjRecordSet (mk_set dn ls)))
    by (by rewrite Hobj, Hself).
  assert (Hrs2 : points_to w2 ls (map delete rs)).
  { apply (points_to_impl w1 w2 _ _ delete Hrs). intros l r Hl Hr.
    rewrite Hobj, Hr. unfold deleted_in. simpl. by rewrite decide_True. }
  assert (Hids : Forall (fun r => is_Some (record_id r)) rs).
  { clear -Hitems. induction Hitems as [|item r items rs Hitem _ IH];
      constructor; [by eapply deserialized_has_id | done]. }
  assert (Hpay := deleted_payloads rs). rewrite (filter_all _ _ Hids) in Hpay.
  exists w2, (omap (fun record => record) (map serialize (map delete rs))).
  split_and!.
  - rewrite (bind_Ret _ _ _ _ _ Hrun). rewrite (bind_Ret _ _ _ _ _ Hdel).
    by apply set_serialize_Ret with (s := mk_set dn ls).
  - done.
  - rewrite <- (Forall2_length _ _ _ Hpay). symmetry.
    exact (Forall2_length _ _ _ Hitems).
Qed.

Lemma fetched_then_deleted_witness :
  exists w' payloads,
    (record_set <- DNSRecordSet.deserialize "example.com" (PDict fetched_payload) ;;
     DNSRecordSet.delete_all record_set ;;
     DNSRecordSet.serialize record_set) example_store
    = (Ret (PDict [("dnsrecords", PList (map PDict payloads))]), w') /\
    length payloads = 1%nat.
Proof.
  destruct (fetched_then_deleted example_store "example.com" fetched_payload
              [fetched_item]
              [mk (Some 5) "MX" "@" "mail.example.com" None false] eq_refl)
    as (w' & payloads & Hrun & _ & Hlen).
  - constructor; [vm_compute; reflexivity | constructor].
  - exists w', payloads. split; [exact Hrun | exact Hlen].
Defined.

(** ** The connection: what is sent *)

Lemma action_run post w self c action_name params :
  objects w !! self = Some (ObjConnection c) ->
  NetcupConnection._action post self action_name params w
  = answered (post (_uri c) (PDict [("action", PStr action_name);
                                    ("param", PDict params)]))
             ret w.
Proof.
  intros Hself. unfold NetcupConnection._action.
  rewrite (bind_Ret _ _ _ _ _ (read_connection_Ret _ _ _ Hself)).
  unfold lift, bind, answered. by destruct (post _ _) as [[st body]|e].
Qed.

Lemma session_action_run post w self c action_name params :
  objects w !! self = Some (ObjConnection c) ->
  _session_id c <> PNone ->
  NetcupConnection._session_action post self action_name params w
  = answered (post (_uri c) (session_request c action_name params))
             (fun r => ret (Some r)) w.
Proof.
  intros Hself Hsession. unfold NetcupConnection._session_action.
  rewrite (bind_Ret _ _ _ _ _ (read_connection_Ret _ _ _ Hself)).
  assert (Hact := action_run post w self c action_name
                    (session_params c (default [] params)) Hself).
  unfold session_request. unfold session_params in *.
  destruct (post _ _) as [[st body]|e]; simpl in *;
    destruct (_session_id c) eqn:Hsid; try done;
    first [ by rewrite (bind_Ret _ _ _ _ _ Hact)
          | by rewrite (bind_Raise _ _ _ _ _ Hact) ].
Qed.

Lemma session_action_in_place_fst post w self action_name params :
  fst (NetcupConnection._session_action_in_place post self action_name params w)
  = NetcupConnection._session_action post self action_name (Some params) w.
Proof.
  unfold NetcupConnection._session_action_in_place,
    NetcupConnection._session_action.
  destruct (read_connection self w) as [[c|e] w'] eqn:Hread.
  - rewrite (bind_Ret _ _ _ _ _ Hread). by destruct (_session_id c).
  - by rewrite (bind_Raise _ _ _ _ _ Hread).
Qed.

Lemma session_action_in_place_snd post w self c action_name params :
  objects w !! self = Some (ObjConnection c) ->
  snd (NetcupConnection._session_action_in_place post self action_name params w)
  = match _session_id c with
    | PNone => params
    | _ => session_params c params
    end.
Proof.
  intros Hself. unfold NetcupConnection._session_action_in_place.
  rewrite (read_connection_Ret _ _ _ Hself). unfold session_params.
  by destruct (_session_id c).
Qed.

(** X13. For a caller that passes its own dict of parameters: with a session,
    [_session_action] posts, to the connection's endpoint, the action name
    and the caller's parameters with the API key, the session id and the
    customer number written over them (other keys kept), whatever the
    transport is, and returns the transport's answer or raises the
    transport's exception; no object of the store changes, and the caller's
    dict is updated in place: after the call, also when the transport raised,
    it holds what was posted.  Without a session the warning is written, None
    is returned and the caller's dict is left as it was. *)
Theorem session_action_sends (w : world) (self : loc) (c : NetcupConnection)
    (action_name : string) (params : dict) :
  objects w !! self = Some (ObjConnection c) ->
  (_session_id c <> PNone ->
   exists sent,
     (forall post : string -> pyval -> outcome (Z * pyval),
        NetcupConnection._session_action_in_place post self action_name params w
        = (match post (_uri c) (PDict [("action", PStr action_name);
                                       ("param", PDict sent)]) with
           | Ret (st, body) =>
               (Ret (Some (NetcupConnection.Response st body)), w)
           | Raise e => (Raise e, w)
           end, sent)) /\
     Py.dict_get "apikey" sent = Some (PStr (api_key c)) /\
     Py.dict_get "apisessionid" sent = Some (_session_id c) /\
     Py.dict_get "customernumber" sent = Some (PStr (customer c)) /\
     (forall k, k <> "apikey" -> k <> "apisessionid" -> k <> "customernumber" ->
        Py.dict_get k sent = Py.dict_get k params)) /\
  (_session_id c = PNone ->
   forall post : string -> pyval -> outcome (Z * pyval),
     NetcupConnection._session_action_in_place post self action_name params w
     = ((Ret None, warned w), params)).
Proof.
  intros Hself. split.
  - intros Hsession. exists (session_params c params). split_and!.
    + intros post.
      assert (Hfst := session_action_in_place_fst post w self action_name params).
      assert (Hsnd := session_action_in_place_snd post w self c action_name
                        params Hself).
      rewrite (session_action_run post w self c _ _ Hself Hsession) in Hfst.
      destruct (NetcupConnection._session_action_in_place post self action_name
                  params w) as [run left].
      simpl in Hfst, Hsnd. subst run. f_equal.
      * unfold answered, session_request. simpl.
        by destruct (post _ _) as [[st body]|e].
      * rewrite Hsnd. by destruct (_session_id c).
    + unfold session_params. rewrite !dict_get_set_ne by done.
      apply dict_get_set_eq.
    + unfold session_params. rewrite dict_get_set_ne by done.
      apply dict_get_set_eq.
    + apply dict_get_set_eq.
    + intros k H1 H2 H3. unfold session_params.
      by rewrite !dict_get_set_ne by done.
  - intros Hnone post.
    assert (Hfst := session_action_in_place_fst post w self action_name params).
    assert (Hsnd := session_action_in_place_snd post w self c action_name
                      params Hself).
    rewrite (session_action_unauthenticated post w self c Hself Hnone) in Hfst.
    rewrite Hnone in Hsnd.
    destruct (NetcupConnection._session_action_in_place post self action_name
                params w) as [run left].
    simpl in Hfst, Hsnd. by subst.
Qed.

Lemma session_action_sends_witness :
  exists sent,
    NetcupConnection._session_action_in_place (fun _ _ => Raise ValueError)
      5%positive "infoDnsRecords"
      [("domainname", PStr "example.com"); ("apikey", PStr "other")]
      session_store
    = ((Raise ValueError, session_store), sent) /\
    Py.dict_get "apikey" sent = Some (PStr "key") /\
    Py.dict_get "domainname" sent = Some (PStr "example.com").
Proof.
  destruct (proj1 (session_action_sends session_store
              5%positive _ "infoDnsRecords"
              [("domainname", PStr "example.com"); ("apikey", PStr "other")]
              eq_refl) ltac:(discriminate))
    as (sent & Hrun & Hkey & _ & _ & Hother).
  exists sent. split; [exact (Hrun (fun _ _ => Raise ValueError))|].
  split; [exact Hkey|].
  rewrite Hother by discriminate. reflexivity.
Defined.

(** ** The connection: logging in *)

Lemma login_run post w self c :
  objects w !! self = Some (ObjConnection c) ->
  forall k : NetcupConnection.response -> M NetcupConnection.response,
    (c0 <- read_connection self ;;
     response <- NetcupConnection._action post self "login"
                   [("apikey", PStr (api_key c0));
                    ("apipassword", PStr (api_password c0));
                    ("customernumber", PStr (customer c0))] ;;
     k response) w
    = answered (post (_uri c) (login_request c)) k w.
Proof.
  intros Hself k.
  rewrite (bind_Ret _ _ _ _ _ (read_connection_Ret _ _ _ Hself)).
  assert (Hact := action_run post w self c "login"
                    [("apikey", PStr (api_key c));
                     ("apipassword", PStr (api_password c));
                     ("customernumber", PStr (customer c))] Hself).
  unfold login_request. unfold bind. rewrite Hact. unfold answered.
  by destruct (post _ _) as [[st body]|e].
Qed.

Lemma login_accepted post w self c body responsedata session_id :
  objects w !! self = Some (ObjConnection c) ->
  post (_uri c) (login_request c) = Ret (200, body) ->
  Py.subscript body "responsedata" = Ret responsedata ->
  Py.subscript responsedata "apisessionid" = Ret session_id ->
  NetcupConnection.login post self w
  = (Ret (NetcupConnection.Response 200 body),
     World (<[self := ObjConnection (with_session c session_id)]> (objects w))
           (stderr w)).
Proof.
  intros Hself Hpost Hrd Hsid. unfold NetcupConnection.login.
  rewrite (login_run post w self c Hself), Hpost. simpl.
  unfold bind at 1. unfold bind at 1. unfold lift at 1. rewrite Hrd.
  unfold bind at 1. unfold lift at 1. rewrite Hsid.
  by rewrite (bind_Ret _ _ _ _ _ (read_connection_Ret _ _ _ Hself)).
Qed.

Lemma login_refused post w self c st body :
  objects w !! self = Some (ObjConnection c) ->
  post (_uri c) (login_request c) = Ret (st, body) -> st <> 200 ->
  NetcupConnection.login post self w
  = (Ret (NetcupConnection.Response st body), w).
Proof.
  intros Hself Hpost Hst. unfold NetcupConnection.login.
  rewrite (login_run post w self c Hself), Hpost. simpl.
  apply Z.eqb_neq in Hst. by rewrite Hst.
Qed.

(** X14. [login] posts the credentials.  On HTTP status 200 it stores the
    [apisessionid] of the answer in the connection and returns the answer;
    the connection then counts as logged in unless that id is None.  On any
    other status it returns the answer and stores nothing: a refused login
    raises no exception.  An exception of the transport, or an answer with
    status 200 without ["responsedata"]["apisessionid"], is raised to the
    caller, and nothing is stored. *)
Theorem login_outcomes (post : string -> pyval -> outcome (Z * pyval))
    (w : world) (self : loc) (c : NetcupConnection) :
  objects w !! self = Some (ObjConnection c) ->
  (forall body responsedata session_id,
     post (_uri c) (login_request c) = Ret (200, body) ->
     Py.subscript body "responsedata" = Ret responsedata ->
     Py.subscript responsedata "apisessionid" = Ret session_id ->
     let w' := World (<[self := ObjConnection (with_session c session_id)]>
                        (objects w)) (stderr w) in
     NetcupConnection.login post self w
     = (Ret (NetcupConnection.Response 200 body), w') /\
     NetcupConnection.logged_in self w'
     = (Ret (match session_id with PNone => false | _ => true end), w')) /\
  (forall st body,
     post (_uri c) (login_request c) = Ret (st, body) -> st <> 200 ->
     NetcupConnection.login post self w
     = (Ret (NetcupConnection.Response st body), w)) /\
  (forall e,
     post (_uri c) (login_request c) = Raise e ->
     NetcupConnection.login post self w = (Raise e, w)) /\
  (forall body e,
     post (_uri c) (login_request c) = Ret (200, body) ->
     (Py.subscript body "responsedata" = Raise e \/
      exists responsedata,
        Py.subscript body "responsedata" = Ret responsedata /\
        Py.subscript responsedata "apisessionid" = Raise e) ->
     NetcupConnection.login post self w = (Raise e, w)).
Proof.
  intros Hself. assert (Hhead := login_run post w self c Hself).
  unfold NetcupConnection.login. split_and!.
  - intros body rd sid Hpost Hrd Hsid. cbv zeta. split.
    + fold (NetcupConnection.login post self). by eapply login_accepted.
    + unfold NetcupConnection.logged_in.
      erewrite (bind_Ret _ _ _ (with_session c sid));
        [reflexivity | apply read_connection_Ret, lookup_insert_eq].
  - intros st body Hpost Hst. fold (NetcupConnection.login post self).
    by eapply login_refused.
  - intros e Hpost. by rewrite Hhead, Hpost.
  - intros body e Hpost Hfail. rewrite Hhead, Hpost. simpl.
    unfold bind at 1. unfold bind at 1. unfold lift at 1.
    destruct Hfail as [Hrd|(rd & Hrd & Hsid)]; rewrite Hrd; [done|].
    unfold bind at 1. unfold lift at 1. by rewrite Hsid.
Qed.

Lemma login_outcomes_witness :
  NetcupConnection.login
    (answering 403 (PDict [("status", PStr "error")])) 5%positive offline_store
  = (Ret (NetcupConnection.Response 403 (PDict [("status", PStr "error")])),
     offline_store).
Proof.
  apply (proj1 (proj2 (login_outcomes
           (answering 403 (PDict [("status", PStr "error")])) offline_store
           5%positive new_connection eq_refl)));
    [reflexivity | discriminate].
Defined.

(** ** The connection: fetching the records of a domain *)

(** X15. With a session, [info_dns_records] raises a ServerResponseError
    carrying the answer when the HTTP status is not 200, and a
    ServerResponseError carrying the answer's long message when the status is
    200 and the application status is not "success"; with status 200 and
    application status "success" it is [DNSRecordSet.deserialize] of the
    answer's response data.  An exception of the transport is raised to the
    caller as it is.  The state is unchanged in every failure. *)
Theorem info_dns_records_outcomes
    (post : string -> pyval -> outcome (Z * pyval))
    (w : world) (self : loc) (c : NetcupConnection) (dn : string) :
  objects w !! self = Some (ObjConnection c) ->
  _session_id c <> PNone ->
  let request :=
    session_request c "infoDnsRecords" (Some [("domainname", PStr dn)]) in
  (forall st body, post (_uri c) request = Ret (st, body) -> st <> 200 ->
     NetcupConnection.info_dns_records post self dn w
     = (Raise (ServerResponseError
                 "Unable to retrieve DNS records (no HTTP 200):" []
                 (Some (st, body))), w)) /\
  (forall body v longmessage,
     post (_uri c) request = Ret (200, body) ->
     Py.subscript body "status" = Ret v -> v <> PStr "success" ->
     Py.subscript body "longmessage" = Ret longmessage ->
     NetcupConnection.info_dns_records post self dn w
     = (Raise (ServerResponseError
                 "Unable to retrieve DNS records (no 'success' status): %s"
                 [longmessage] None), w)) /\
  (forall body responsedata,
     post (_uri c) request = Ret (200, body) ->
     Py.subscript body "status" = Ret (PStr "success") ->
     Py.subscript body "responsedata" = Ret responsedata ->
     NetcupConnection.info_dns_records post self dn w
     = DNSRecordSet.deserialize dn responsedata w) /\
  (forall e, post (_uri c) request = Raise e ->
     NetcupConnection.info_dns_records post self dn w = (Raise e, w)).
Proof.
  intros Hself Hsession request.
  assert (Hrun := session_action_run post w self c "infoDnsRecords"
                    (Some [("domainname", PStr dn)]) Hself Hsession).
  fold request in Hrun. unfold NetcupConnection.info_dns_records.
  split_and!.
  - intros st body Hpost Hst. rewrite Hpost in Hrun. simpl in Hrun.
    rewrite (bind_Ret _ _ _ _ _ Hrun). apply Z.eqb_neq in Hst.
    unfold NetcupConnection.subscripted, bind, ret. simpl. by rewrite Hst.
  - intros body v lm Hpost Hv Hne Hlm. rewrite Hpost in Hrun. simpl in Hrun.
    rewrite (bind_Ret _ _ _ _ _ Hrun).
    unfold NetcupConnection.subscripted, bind, ret, lift. simpl.
    rewrite Hv, Hlm.
    destruct v as [| | |s'| |]; try done. simpl.
    destruct (String.eqb_spec s' "success") as [->|]; done.
  - intros body rd Hpost Hv Hrd. rewrite Hpost in Hrun. simpl in Hrun.
    rewrite (bind_Ret _ _ _ _ _ Hrun).
    unfold NetcupConnection.subscripted. unfold bind at 1. unfold ret at 1.
    simpl. unfold bind at 1. unfold lift at 1. rewrite Hv. simpl.
    unfold bind at 1. unfold lift at 1. by rewrite Hrd.
  - intros e Hpost. rewrite Hpost in Hrun. simpl in Hrun.
    by rewrite (bind_Raise _ _ _ _ _ Hrun).
Qed.

Lemma info_dns_records_outcomes_witness :
  NetcupConnection.info_dns_records
    (answering 200 (refusal (PStr ""))) 5%positive "example.com" session_store
  = (Raise (ServerResponseError
              "Unable to retrieve DNS records (no 'success' status): %s"
              [PStr "Validation Error."] None), session_store).
Proof.
  apply (proj1 (proj2 (info_dns_records_outcomes
           (answering 200 (refusal (PStr ""))) session_store 5%positive
           _ "example.com" eq_refl ltac:(discriminate)))
           (refusal (PStr "")) (PStr "error"));
    [reflexivity | reflexivity | discriminate | reflexivity].
Defined.

(** ** The connection: as a context manager *)

(** X16. Entering and leaving the connection as a context manager never
    raises because of a refused login: when the login is answered with a
    status other than 200, [__enter__] returns the connection without a
    session and [__exit__] only writes the warning.  When the login is
    accepted and the logout request is answered, the connection still holds
    its session id after [__exit__] and still counts as logged in: [logout]
    does not clear it. *)
Theorem context_manager (post : string -> pyval -> outcome (Z * pyval))
    (w : world) (self : loc) (c : NetcupConnection) :
  objects w !! self = Some (ObjConnection c) ->
  (forall st body,
     _session_id c = PNone ->
     post (_uri c) (login_request c) = Ret (st, body) -> st <> 200 ->
     (conn <- NetcupConnection.__enter__ post self ;;
      NetcupConnection.__exit__ post conn) w
     = (Ret tt, warned w)) /\
  (forall body responsedata session_id answer,
     post (_uri c) (login_request c) = Ret (200, body) ->
     Py.subscript body "responsedata" = Ret responsedata ->
     Py.subscript responsedata "apisessionid" = Ret session_id ->
     session_id <> PNone ->
     post (_uri c) (session_request (with_session c session_id) "logout" None)
     = Ret answer ->
     let w' := World (<[self := ObjConnection (with_session c session_id)]>
                        (objects w)) (stderr w) in
     (conn <- NetcupConnection.__enter__ post self ;;
      NetcupConnection.__exit__ post conn) w
     = (Ret tt, w') /\
     NetcupConnection.logged_in self w' = (Ret true, w')).
Proof.
  intros Hself. split.
  - intros st body Hnone Hpost Hst.
    unfold NetcupConnection.__enter__, NetcupConnection.__exit__.
    rewrite (bind_Ret _ _ w self w).
    + unfold NetcupConnection.logout.
      by rewrite (bind_Ret _ _ _ _ _
                    (session_action_unauthenticated post w self c Hself Hnone _ _)).
    + by rewrite (bind_Ret _ _ _ _ _ (login_refused post w self c st body
                                        Hself Hpost Hst)).
  - intros body rd sid answer Hpost Hrd Hsid Hset Hlogout. cbv zeta.
    set (w' := World (<[self := ObjConnection (with_session c sid)]> (objects w))
                     (stderr w)).
    assert (Hself' : objects w' !! self = Some (ObjConnection (with_session c sid)))
      by apply lookup_insert_eq.
    split.
    + unfold NetcupConnection.__enter__, NetcupConnection.__exit__.
      rewrite (bind_Ret _ _ w self w').
      * unfold NetcupConnection.logout.
        rewrite (bind_Ret _ _ w'
                   (Some (NetcupConnection.Response answer.1 answer.2)) w');
          [done|].
        rewrite (session_action_run post w' self _ "logout" None Hself' Hset).
        simpl in Hlogout |- *. rewrite Hlogout. by destruct answer.
      * by rewrite (bind_Ret _ _ _ _ _ (login_accepted post w self c body rd sid
                                          Hself Hpost Hrd Hsid)).
    + unfold NetcupConnection.logged_in.
      rewrite (bind_Ret _ _ _ _ _ (read_connection_Ret _ _ _ Hself')).
      simpl. by destruct sid.
Qed.

Lemma context_manager_witness :
  (conn <- NetcupConnection.__enter__
             (answering 403 (PDict [("status", PStr "error")])) 5%positive ;;
   NetcupConnection.__exit__
     (answering 403 (PDict [("status", PStr "error")])) conn) offline_store
  = (Ret tt, warned offline_store).
Proof.
  apply (proj1 (context_manager
                  (answering 403 (PDict [("status", PStr "error")]))
                  offline_store 5%positive new_connection eq_refl)
           403 (PDict [("status", PStr "error")]));
    [reflexivity | reflexivity | discriminate].
Defined.

(** ** The connection: zones *)

Section ZoneOutcomes.
Variable post : string -> pyval -> outcome (Z * pyval).
Variable DNSZone : Type.
Variable zone_domainname : DNSZone -> M string.
Variable zone_serialize : DNSZone -> M pyval.
Variable zone_deserialize : pyval -> M DNSZone.
Variables (w : world) (self : loc) (c : NetcupConnection).
Hypothesis Hself : objects w !! self = Some (ObjConnection c).

Lemma info_dns_zone_run dn :
  _session_id c <> PNone ->
  NetcupConnection.info_dns_zone post DNSZone zone_deserialize self dn w
  = answered
      (post (_uri c)
            (session_request c "infoDnsZone" (Some [("domainname", PStr dn)])))
      (fun r =>
         if negb (Z.eqb (NetcupConnection.status r) 200) then
           raise (ServerResponseError "Unable to retrieve DNS zone:" []
                    (Some (NetcupConnection.as_pair r)))
         else
           responsedata <- lift (Py.subscript (NetcupConnection.data r)
                                              "responsedata") ;;
           zone_deserialize responsedata) w.
Proof.
  intros Hsession. unfold NetcupConnection.info_dns_zone.
  assert (Hrun := session_action_run post w self c "infoDnsZone"
                    (Some [("domainname", PStr dn)]) Hself Hsession).
  destruct (post _ _) as [[st body]|e]; simpl in *.
  - by rewrite (bind_Ret _ _ _ _ _ Hrun).
  - by rewrite (bind_Raise _ _ _ _ _ Hrun).
Qed.

Lemma update_dns_zone_run zone dn payload :
  _session_id c <> PNone ->
  zone_domainname zone w = (Ret dn, w) ->
  zone_serialize zone w = (Ret payload, w) ->
  NetcupConnection.update_dns_zone post DNSZone zone_domainname zone_serialize
    zone_deserialize self zone w
  = answered
      (post (_uri c)
            (session_request c "updateDnsZone"
               (Some [("domainname", PStr dn); ("dnszone", payload)])))
      (fun r =>
         if Z.eqb (NetcupConnection.status r) 200 then
           responsedata <- lift (Py.subscript (NetcupConnection.data r)
                                              "responsedata") ;;
           zone_deserialize responsedata
         else
           raise (ServerResponseError "Unable to update DNS zone:" []
                    (Some (NetcupConnection.as_pair r)))) w.
Proof.
  intros Hsession Hdn Hser. unfold NetcupConnection.update_dns_zone.
  rewrite (bind_Ret _ _ _ _ _ Hdn). rewrite (bind_Ret _ _ _ _ _ Hser).
  assert (Hrun := session_action_run post w self c "updateDnsZone"
                    (Some [("domainname", PStr dn); ("dnszone", payload)])
                    Hself Hsession).
  destruct (post _ _) as [[st body]|e]; simpl in *.
  - by rewrite (bind_Ret _ _ _ _ _ Hrun).
  - by rewrite (bind_Raise _ _ _ _ _ Hrun).
Qed.
End ZoneOutcomes.

(** X17. With a session, [info_dns_zone] and [update_dns_zone] decide on the
    HTTP status alone: any status other than 200 raises a ServerResponseError
    carrying the answer, and status 200 hands the answer's response data to
    [DNSZone.deserialize] whatever the application status is.  Without a
    session, [info_dns_zone] writes the warning and raises a TypeError. *)
Theorem zone_outcomes (post : string -> pyval -> outcome (Z * pyval))
    (DNSZone : Type) (zone_domainname : DNSZone -> M string)
    (zone_serialize : DNSZone -> M pyval) (zone_deserialize : pyval -> M DNSZone)
    (w : world) (self : loc) (c : NetcupConnection) :
  objects w !! self = Some (ObjConnection c) ->
  (_session_id c <> PNone ->
   forall dn st body,
     post (_uri c)
          (session_request c "infoDnsZone" (Some [("domainname", PStr dn)]))
     = Ret (st, body) ->
     (st <> 200 ->
        NetcupConnection.info_dns_zone post DNSZone zone_deserialize self dn w
        = (Raise (ServerResponseError "Unable to retrieve DNS zone:" []
                    (Some (st, body))), w)) /\
     (st = 200 -> forall responsedata,
        Py.subscript body "responsedata" = Ret responsedata ->
        NetcupConnection.info_dns_zone post DNSZone zone_deserialize self dn w
        = zone_deserialize responsedata w)) /\
  (_session_id c <> PNone ->
   forall zone dn payload st body,
     zone_domainname zone w = (Ret dn, w) ->
     zone_serialize zone w = (Ret payload, w) ->
     post (_uri c)
          (session_request c "updateDnsZone"
             (Some [("domainname", PStr dn); ("dnszone", payload)]))
     = Ret (st, body) ->
     (st <> 200 ->
        NetcupConnection.update_dns_zone post DNSZone zone_domainname
          zone_serialize zone_deserialize self zone w
        = (Raise (ServerResponseError "Unable to update DNS zone:" []
                    (Some (st, body))), w)) /\
     (st = 200 -> forall responsedata,
        Py.subscript body "responsedata" = Ret responsedata ->
        NetcupConnection.update_dns_zone post DNSZone zone_domainname
          zone_serialize zone_deserialize self zone w
        = zone_deserialize responsedata w)) /\
  (_session_id c = PNone ->
   forall dn,
     NetcupConnection.info_dns_zone post DNSZone zone_deserialize self dn w
     = (Raise TypeError, warned w)).
Proof.
  intros Hself. split_and!.
  - intros Hsession dn st body Hpost.
    rewrite (info_dns_zone_run post DNSZone zone_deserialize w self c Hself dn
               Hsession), Hpost. simpl. split.
    + intros Hst. apply Z.eqb_neq in Hst. by rewrite Hst.
    + intros -> rd Hrd. simpl. unfold bind, lift. by rewrite Hrd.
  - intros Hsession zone dn payload st body Hdn Hser Hpost.
    rewrite (update_dns_zone_run post DNSZone zone_domainname zone_serialize
               zone_deserialize w self c Hself zone dn payload Hsession Hdn Hser),
      Hpost. simpl. split.
    + intros Hst. apply Z.eqb_neq in Hst. by rewrite Hst.
    + intros -> rd Hrd. simpl. unfold bind, lift. by rewrite Hrd.
  - intros Hnone dn. unfold NetcupConnection.info_dns_zone.
    by rewrite (bind_Ret _ _ _ _ _
                  (session_action_unauthenticated post w self c Hself Hnone _ _)).
Qed.

Lemma zone_outcomes_witness :
  NetcupConnection.update_dns_zone
    (answering 500 (PDict [("status", PStr "error")]))
    pyval (fun _ => ret "example.com") ret ret 5%positive (PStr "zone")
    session_store
  = (Raise (ServerResponseError "Unable to update DNS zone:" []
              (Some (500, PDict [("status", PStr "error")]))), session_store).
Proof.
  apply (proj1 (proj1 (proj2 (zone_outcomes
           (answering 500 (PDict [("status", PStr "error")]))
           pyval (fun _ => ret "example.com") ret ret session_store 5%positive
           _ eq_refl)) ltac:(discriminate)
           (PStr "zone") "example.com" (PStr "zone") 500
           (PDict [("status", PStr "error")]) eq_refl eq_refl eq_refl));
    discriminate.
Defined.

(** ** Printing records *)

Lemma string_app_assoc (s1 s2 s3 : string) :
  ((s1 ++ s2) ++ s3 = s1 ++ (s2 ++ s3))%string.
Proof.
  induction s1 as [|c s1 IH]; [reflexivity|].
  change (String c ((s1 ++ s2) ++ s3) = String c (s1 ++ (s2 ++ s3)))%string.
  by rewrite IH.
Qed.

Lemma join_snoc (sep x : string) (xs : list string) :
  xs <> [] ->
  Py.join sep (xs ++ [x])%list = (Py.join sep xs ++ sep ++ x)%string.
Proof.
  induction xs as [|y xs IH]; [done|]. intros _.
  destruct xs as [|z xs]; [reflexivity|].
  change (Py.join sep ((y :: z :: xs) ++ [x])%list)
    with (y ++ sep ++ Py.join sep ((z :: xs) ++ [x])%list)%string.
  rewrite IH by done.
  change (Py.join sep (y :: z :: xs))
    with (y ++ sep ++ Py.join sep (z :: xs))%string.
  by rewrite !string_app_assoc.
Qed.

Lemma dump_dumpable (r : DNSRecord) :
  dumpable r ->
  exists components,
    components <> [] /\
    forall prefix stdout del,
      dump (mk (record_id r) (record_type r) (hostname r) (destination r)
               (priority r) del) prefix stdout
      = (Ret tt,
         app stdout [(prefix ++ Py.join " " (if del
                                             then app components ["<DELETE>"]
                                             else components))%string]).
Proof.
  intros Hd. unfold dump; simpl.
  destruct (String.eqb_spec (Py.upper (record_type r)) "MX") as [Hmx|Hmx].
  - destruct (priority r) as [p|] eqn:Hp.
    + eexists. split; [|intros; reflexivity]. done.
    + destruct Hd; contradiction.
  - eexists. split; [|intros; reflexivity]. done.
Qed.

(** X18. [DNSRecord.dump] raises a TypeError, printing nothing, for an MX
    record (type compared in upper case) without priority, as [deserialize]
    yields for a wire priority of 0.  For every other record it prints one
    line that begins with the prefix; for a record marked deleted the line is
    the line of the unmarked record followed by " <DELETE>". *)
Theorem dump_record (r : DNSRecord) (prefix : string) (stdout : list string) :
  (Py.upper (record_type r) = "MX" -> priority r = None ->
     dump r prefix stdout = (Raise TypeError, stdout)) /\
  (dumpable r ->
     exists line,
       dump r prefix stdout = (Ret tt, app stdout [(prefix ++ line)%string]) /\
       (deleted r = false ->
          dump (delete r) prefix stdout
          = (Ret tt, app stdout [(prefix ++ line ++ " <DELETE>")%string]))).
Proof.
  split.
  - intros Hmx Hp. unfold dump. by rewrite Hmx, Hp.
  - intros Hd. destruct (dump_dumpable r Hd) as (cs & Hne & Hdump).
    destruct r as [rid t h dst p del]; simpl in *.
    eexists. split; [apply Hdump|]. intros ->. unfold delete; simpl.
    rewrite Hdump. by rewrite join_snoc.
Qed.

Lemma dump_record_witness :
  dump (mk (Some 5) "MX" "@" "mail.example.com" None false) "" []
  = (Raise TypeError, []) /\
  exists line,
    dump (mk (Some 11) "A" "www" "192.0.2.1" None false) "> " []
    = (Ret tt, [("> " ++ line)%string]).
Proof.
  split.
  - apply (proj1 (dump_record (mk (Some 5) "MX" "@" "mail.example.com" None false)
                    "" [])); reflexivity.
  - destruct (proj2 (dump_record (mk (Some 11) "A" "www" "192.0.2.1" None false)
                       "> " [])) as (line & Hline & _).
    + left. simpl. discriminate.
    + exists line. exact Hline.
Defined.

Lemma dump_from_all w : forall ls rs,
  points_to w ls rs -> Forall dumpable rs ->
  forall rec_no stdout,
    exists lines,
      DNSRecordSet.dump_from w rec_no ls stdout = (Ret tt, (stdout ++ lines)%list) /\
      length lines = length rs.
Proof.
  induction 1 as [|l r ls rs Hl _ IH]; intros Hall rec_no stdout; simpl.
  - exists []. by rewrite app_nil_r.
  - apply Forall_cons in Hall as [Hr Hall]. rewrite Hl.
    destruct (dump_dumpable r Hr) as (cs & _ & Hdump).
    specialize (Hdump (String (ascii_of_nat 9)
                         (Py.rjust 2 (Py.decimal rec_no) ++ ") ")) stdout (deleted r)).
    destruct r as [rid t h dst p del]; simpl in *. rewrite Hdump.
    destruct (IH Hall (rec_no + 1)
                (app stdout
                     [(String (ascii_of_nat 9)
                         (Py.rjust 2 (Py.decimal rec_no) ++ ") ")
                       ++ Py.join " " (if del then app cs ["<DELETE>"]
                                       else cs))%string]))
      as (lines & -> & Hlen).
    eexists (_ :: lines). rewrite <- app_assoc. split; [reflexivity|].
    simpl. by rewrite Hlen.
Qed.

Lemma dump_from_stops w bad lbad lrest : forall lgood good,
  points_to w lgood good -> Forall dumpable good ->
  objects w !! lbad = Some (ObjRecord bad) ->
  Py.upper (record_type bad) = "MX" -> priority bad = None ->
  forall rec_no stdout,
    exists lines,
      DNSRecordSet.dump_from w rec_no (lgood ++ lbad :: lrest) stdout
      = (Raise TypeError, (stdout ++ lines)%list) /\
      length lines = length good.
Proof.
  induction 1 as [|l r ls rs Hl _ IH];
    intros Hall Hbad Hmx Hp rec_no stdout; simpl.
  - exists []. rewrite app_nil_r, Hbad. unfold dump. by rewrite Hmx, Hp.
  - apply Forall_cons in Hall as [Hr Hall]. rewrite Hl.
    destruct (dump_dumpable r Hr) as (cs & _ & Hdump).
    specialize (Hdump (String (ascii_of_nat 9)
                         (Py.rjust 2 (Py.decimal rec_no) ++ ") ")) stdout (deleted r)).
    destruct r as [rid t h dst p del]; simpl in *. rewrite Hdump.
    destruct (IH Hall Hbad Hmx Hp (rec_no + 1)
                (app stdout
                     [(String (ascii_of_nat 9)
                         (Py.rjust 2 (Py.decimal rec_no) ++ ") ")
                       ++ Py.join " " (if del then app cs ["<DELETE>"]
                                       else cs))%string]))
      as (lines & -> & Hlen).
    eexists (_ :: lines). rewrite <- app_assoc. split; [reflexivity|].
    simpl. by rewrite Hlen.
Qed.

(** X19. [DNSRecordSet.dump] prints one line per record of the set, after
    what was printed before, when no record is an MX record without
    priority; at the first such record it raises a TypeError, having printed
    the lines of the records before it and none for the records after it. *)
Theorem dump_set (w : world) (self : loc) (s : DNSRecordSet)
    (stdout : list string) :
  objects w !! self = Some (ObjRecordSet s) ->
  (forall rs, points_to w (_records s) rs -> Forall dumpable rs ->
     exists lines,
       DNSRecordSet.dump self w stdout = (Ret tt, (stdout ++ lines)%list) /\
       length lines = length rs) /\
  (forall lgood good lbad bad lrest,
     _records s = (lgood ++ lbad :: lrest)%list ->
     points_to w lgood good -> Forall dumpable good ->
     objects w !! lbad = Some (ObjRecord bad) ->
     Py.upper (record_type bad) = "MX" -> priority bad = None ->
     exists lines,
       DNSRecordSet.dump self w stdout = (Raise TypeError, (stdout ++ lines)%list) /\
       length lines = length good).
Proof.
  intros Hself. unfold DNSRecordSet.dump. rewrite Hself. split.
  - intros rs Hrs Hall. by apply dump_from_all.
  - intros lgood good lbad bad lrest -> Hgood Hall Hbad Hmx Hp.
    by apply dump_from_stops with (bad := bad).
Qed.

Lemma dump_set_witness :
  exists lines,
    DNSRecordSet.dump 1%positive example_store [] = (Ret tt, lines) /\
    length lines = 3%nat.
Proof.
  destruct (proj1 (dump_set example_store 1%positive
                     (mk_set "example.com" [2; 3; 4]%positive) [] eq_refl)
              [mk (Some 11) "A" "www" "192.0.2.1" None false;
               mk None "A" "www" "192.0.2.2" None true;
               mk (Some 12) "MX" "@" "mail.example.com" (Some 10) true])
    as (lines & Hrun & Hlen).
  - repeat constructor.
  - constructor; [left; simpl; discriminate|].
    constructor; [left; simpl; discriminate|].
    constructor; [right; simpl; discriminate|]. constructor.
  - exists lines. split; [exact Hrun | exact Hlen].
Defined.

(** ** The connection: what an update sends, what a fetch returns *)

(** X20. With a session, [update_dns_records] posts the domain name of the
    set and the payloads of its records that are not omitted (a record that
    was added and deleted locally is not sent), in the order of the set; it
    does so whatever the transport is, and an exception of the transport is
    raised to the caller with the state unchanged. *)
Theorem update_dns_records_sends (w : world) (self : loc) (c : NetcupConnection)
    (dns_records : loc) (s : DNSRecordSet) (rs : list DNSRecord) :
  objects w !! self = Some (ObjConnection c) ->
  _session_id c <> PNone ->
  objects w !! dns_records = Some (ObjRecordSet s) ->
  points_to w (_records s) rs ->
  exists payloads,
    Forall2 (fun r p => serialize r = Some p)
            (filter (fun r => is_Some (serialize r)) rs) payloads /\
    forall (post : string -> pyval -> outcome (Z * pyval)) e,
      post (_uri c) (update_request c (domainname s) payloads) = Raise e ->
      NetcupConnection.update_dns_records post self dns_records w = (Raise e, w).
Proof.
  intros Hself Hsession Hset Hrs.
  exists (omap (fun record => record) (map serialize rs)).
  split; [apply kept_payloads|]. intros post e Hpost.
  unfold NetcupConnection.update_dns_records.
  assert (Hdn : DNSRecordSet.get_domainname dns_records w = (Ret (domainname s), w)).
  { unfold DNSRecordSet.get_domainname.
    by rewrite (bind_Ret _ _ _ _ _ (read_set_Ret _ _ _ Hset)). }
  rewrite (bind_Ret _ _ _ _ _ Hdn).
  rewrite (bind_Ret _ _ _ _ _ (set_serialize_Ret _ _ _ _ Hset Hrs)).
  erewrite bind_Raise; [reflexivity|].
  rewrite (session_action_run post w self c _ _ Hself Hsession).
  unfold update_request in Hpost. by rewrite Hpost.
Qed.

Lemma update_dns_records_sends_witness :
  exists payloads,
    length payloads = 2%nat /\
    forall (post : string -> pyval -> outcome (Z * pyval)) e,
      post (_uri new_connection) (update_request
              (with_session new_connection (PStr "session-1")) "example.com"
              payloads) = Raise e ->
      NetcupConnection.update_dns_records post 5%positive 1%positive session_store
      = (Raise e, session_store).
Proof.
  destruct (update_dns_records_sends session_store 5%positive
              (with_session new_connection (PStr "session-1")) 1%positive
              (mk_set "example.com" [2; 3; 4]%positive)
              [mk (Some 11) "A" "www" "192.0.2.1" None false;
               mk None "A" "www" "192.0.2.2" None true;
               mk (Some 12) "MX" "@" "mail.example.com" (Some 10) true]
              eq_refl ltac:(discriminate) eq_refl)
    as (payloads & Hpay & Hrun).
  - repeat constructor.
  - exists payloads. split; [|exact Hrun].
    symmetry. exact (Forall2_length _ _ _ Hpay).
Defined.

Lemma info_dns_records_success post w self c dn body responsedata :
  objects w !! self = Some (ObjConnection c) ->
  _session_id c <> PNone ->
  post (_uri c)
       (session_request c "infoDnsRecords" (Some [("domainname", PStr dn)]))
  = Ret (200, body) ->
  Py.subscript body "status" = Ret (PStr "success") ->
  Py.subscript body "responsedata" = Ret responsedata ->
  NetcupConnection.info_dns_records post self dn w
  = DNSRecordSet.deserialize dn responsedata w.
Proof.
  intros Hself Hsession Hpost Hv Hrd.
  assert (Hrun := session_action_run post w self c "infoDnsRecords"
                    (Some [("domainname", PStr dn)]) Hself Hsession).
  rewrite Hpost in Hrun. simpl in Hrun.
  unfold NetcupConnection.info_dns_records.
  rewrite (bind_Ret _ _ _ _ _ Hrun).
  unfold NetcupConnection.subscripted. unfold bind at 1. unfold ret at 1.
  simpl. unfold bind at 1. unfold lift at 1. rewrite Hv. simpl.
  unfold bind at 1. unfold lift at 1. by rewrite Hrd.
Qed.

(** X21. With a session, when the provider answers the fetch with HTTP
    status 200, application status "success" and response data whose
    ["dnsrecords"] is a list of items that all deserialize,
    [info_dns_records] returns a new record set for the domain with one
    record per item, in the order of the answer, every one with an id; the
    connection and all other existing objects are unchanged. *)
Theorem info_dns_records_fetches
    (post : string -> pyval -> outcome (Z * pyval))
    (w : world) (self : loc) (c : NetcupConnection) (dn : string)
    (body : pyval) (d : dict) (items : list pyval) (rs : list DNSRecord) :
  objects w !! self = Some (ObjConnection c) ->
  _session_id c <> PNone ->
  post (_uri c)
       (session_request c "infoDnsRecords" (Some [("domainname", PStr dn)]))
  = Ret (200, body) ->
  Py.subscript body "status" = Ret (PStr "success") ->
  Py.subscript body "responsedata" = Ret (PDict d) ->
  Py.dict_get "dnsrecords" d = Some (PList items) ->
  deserialize_all items rs ->
  exists record_set ls w',
    NetcupConnection.info_dns_records post self dn w = (Ret record_set, w') /\
    objects w' !! record_set = Some (ObjRecordSet (mk_set dn ls)) /\
    points_to w' ls rs /\
    Forall (fun r => is_Some (record_id r)) rs /\
    (forall l, is_Some (objects w !! l) -> objects w' !! l = objects w !! l).
Proof.
  intros Hself Hsession Hpost Hv Hrd Hd Hitems.
  rewrite (info_dns_records_success post w self c dn body (PDict d)
             Hself Hsession Hpost Hv Hrd).
  destruct (set_deserialize_run w dn d items rs Hd Hitems)
    as (record_set & ls & w' & Hrun & _ & Hset & Hrs & _ & _ & Hframe & _).
  exists record_set, ls, w'. split_and!; try done.
  clear -Hitems. induction Hitems as [|item r items rs Hitem _ IH];
    constructor; [by eapply deserialized_has_id | done].
Qed.

Lemma info_dns_records_fetches_witness :
  exists record_set ls w',
    NetcupConnection.info_dns_records
      (answering 200 (PDict [("status", PStr "success");
                             ("responsedata", PDict fetched_payload)]))
      5%positive "example.com" session_store
    = (Ret record_set, w') /\
    points_to w' ls [mk (Some 5) "MX" "@" "mail.example.com" None false].
Proof.
  destruct (info_dns_records_fetches
              (answering 200 (PDict [("status", PStr "success");
                                     ("responsedata", PDict fetched_payload)]))
              session_store 5%positive
              (with_session new_connection (PStr "session-1")) "example.com"
              (PDict [("status", PStr "success");
                      ("responsedata", PDict fetched_payload)])
              fetched_payload [fetched_item]
              [mk (Some 5) "MX" "@" "mail.example.com" None false]
              eq_refl ltac:(discriminate) eq_refl eq_refl eq_refl eq_refl)
    as (record_set & ls & w' & Hrun & _ & Hrs & _).
  - constructor; [vm_compute; reflexivity | constructor].
  - exists record_set, ls, w'. split; [exact Hrun | exact Hrs].
Defined.
